(** * GraphRAG command-line and query facade: a shallow embedding

    The development models the two modules of the excerpt,

    - [graphrag/prompt_tune/cli.py]  ([prompt_tune]) and
    - [graphrag/query/api.py]        ([__get_embedding_description_store],
                                      [global_search], [local_search]),

    as programs of a state-and-exception monad over a world made of a file
    system, a heap of Python dictionaries and a log of the calls that left
    the excerpt.  Everything the excerpt delegates to (configuration loader,
    prompt generator, indexer adapters, vector stores, search engines,
    progress reporter) is an oracle that may return a value or raise.

    What the model fixes:

    - a collaborator answers from the world it is called in, and the world
      it leaves behind differs only by the log entry of the call: the files
      and dictionaries of the model are touched by the excerpt alone;
    - [config.embeddings.vector_store] is a reference into the heap (or
      [None]), so that an update made through it is seen by every holder
      of the configuration; a reference that is not in the heap reads as
      the empty dictionary;
    - file names and dictionary keys are byte strings, prompts are
      sequences of code points, since [str.encode] can fail on them;
    - the coroutine [prompt_tune] is read as plain sequential code: its one
      [await], on the prompt generator, is a call like any other, and the
      event loop is not part of the model. *)

From Stdlib Require Import ZArith NArith Strings.Byte Strings.Ascii Strings.String.
From stdpp Require Import gmap strings list fin_maps.

Set Warnings "-register-all".
Local Open Scope string_scope.
Local Open Scope list_scope.

(** ** Python values *)

(** The values a configuration dictionary read from [settings.yaml] can
    hold. *)
Inductive pyval :=
| VNone
| VBool (b : bool)
| VInt (z : Z)
| VStr (s : string)
| VList (l : list pyval).

(** Python truth value testing. *)
Definition truthy (v : pyval) : bool :=
  match v with
  | VNone => false
  | VBool b => b
  | VInt z => negb (z =? 0)%Z
  | VStr s => negb (String.eqb s EmptyString)
  | VList l => match l with [] => false | _ :: _ => true end
  end.

(** A [dict] with string keys. *)
Abbreviation pydict := (gmap string pyval).

(** [d.get(k, default)] *)
Definition dict_get (d : pydict) (k : string) (dflt : pyval) : pyval :=
  default dflt (d !! k).

(** [d.update({k: v})] *)
Definition dict_update1 (d : pydict) (k : string) (v : pyval) : pydict :=
  <[k := v]> d.

(** [bool(d)]: a dictionary is true when it is not empty. *)
Definition dict_truthy (d : pydict) : bool := negb (bool_decide (d = ∅)).

(** A [str] is a sequence of code points below [0x110000]; unlike a Unicode
    scalar string it may hold lone surrogates. *)
Definition pystr := list N.

(** ** Exceptions *)

Inductive exn :=
| FileExistsError
| FileNotFoundError
| NotADirectoryError
| IsADirectoryError
| UnicodeEncodeError (position : nat)
| IndexError
| Raised (cls msg : string).

Definition outcome (A : Type) : Type := exn + A.

(** ** [str.encode(encoding="utf-8", errors="strict")] *)

Definition byte_of_N (n : N) : byte := default x00 (Byte.of_N n).

Definition utf8_char (cp : N) : option (list byte) :=
  if (cp <? 0x80)%N then Some [byte_of_N cp]
  else if (cp <? 0x800)%N then
    Some [byte_of_N (N.lor 0xC0 (N.shiftr cp 6));
          byte_of_N (N.lor 0x80 (N.land cp 0x3F))]
  else if ((0xD800 <=? cp) && (cp <=? 0xDFFF))%N then None
  else if (cp <? 0x10000)%N then
    Some [byte_of_N (N.lor 0xE0 (N.shiftr cp 12));
          byte_of_N (N.lor 0x80 (N.land (N.shiftr cp 6) 0x3F));
          byte_of_N (N.lor 0x80 (N.land cp 0x3F))]
  else if (cp <? 0x110000)%N then
    Some [byte_of_N (N.lor 0xF0 (N.shiftr cp 18));
          byte_of_N (N.lor 0x80 (N.land (N.shiftr cp 12) 0x3F));
          byte_of_N (N.lor 0x80 (N.land (N.shiftr cp 6) 0x3F));
          byte_of_N (N.lor 0x80 (N.land cp 0x3F))]
  else None.

Fixpoint utf8_from (pos : nat) (s : pystr) : outcome (list byte) :=
  match s with
  | [] => inr []
  | cp :: rest =>
      match utf8_char cp with
      | None => inl (UnicodeEncodeError pos)
      | Some bs =>
          match utf8_from (S pos) rest with
          | inl e => inl e
          | inr tl => inr (bs ++ tl)
          end
      end
  end.

Definition encode_utf8_strict (s : pystr) : outcome (list byte) := utf8_from 0 s.

(** ** [pathlib.Path] on POSIX *)

(** A path is its anchor and its components.  Parsing drops empty and
    ["."] components and keeps [".."].  (Two leading slashes are read as
    one, as Linux resolves them.) *)
Record Path := mkPath { absolute : bool; parts : list string }.

Fixpoint split_slash (s : string) : list string :=
  match s with
  | EmptyString => [EmptyString]
  | String c rest =>
      if Ascii.eqb c "/"%char then EmptyString :: split_slash rest
      else match split_slash rest with
           | [] => [String c EmptyString]
           | x :: xs => String c x :: xs
           end
  end.

Definition keep_part (s : string) : bool :=
  negb (String.eqb s EmptyString) && negb (String.eqb s ".").

Definition Path_of (s : string) : Path :=
  {| absolute := match s with String c _ => Ascii.eqb c "/"%char | EmptyString => false end;
     parts := List.filter keep_part (split_slash s) |}.

(** [p / name] *)
Definition Path_truediv (p : Path) (name : string) : Path :=
  let q := Path_of name in
  if absolute q then q
  else {| absolute := absolute p; parts := parts p ++ parts q |}.

(** [p.parent] *)
Definition Path_parent (p : Path) : Path :=
  {| absolute := absolute p; parts := removelast (parts p) |}.

(** [bool(p)]: [PurePath] defines neither [__bool__] nor [__len__], so a
    path object is true like any plain object. *)
Definition Path_bool (p : Path) : bool := true.

(** ** File system *)

Inductive node :=
| Dir
| File (content : list byte).

(** Entries are keyed by their location from the root; the root itself is
    always a directory.  There are no symbolic links. *)
Abbreviation filesystem := (gmap (list string) node).

Definition node_at (fs : filesystem) (k : list string) : option node :=
  match k with
  | [] => Some Dir
  | _ => fs !! k
  end.

(** Walk down directories from [cur]; [".."] goes to the parent. *)
Fixpoint walk (fs : filesystem) (cur : list string) (comps : list string)
  : outcome (list string) :=
  match comps with
  | [] => inr cur
  | c :: rest =>
      if String.eqb c ".." then walk fs (removelast cur) rest
      else match node_at fs (cur ++ [c]) with
           | Some Dir => walk fs (cur ++ [c]) rest
           | Some (File _) => inl NotADirectoryError
           | None => inl FileNotFoundError
           end
  end.

Definition start_dir (cwd : list string) (p : Path) : list string :=
  if absolute p then [] else cwd.

(** The last component and what precedes it. *)
Definition split_last (l : list string) : option (list string * string) :=
  match l with
  | [] => None
  | _ => Some (removelast l, List.last l EmptyString)
  end.

(** [p.is_dir()] *)
Definition Path_is_dir (fs : filesystem) (cwd : list string) (p : Path) : bool :=
  match walk fs (start_dir cwd p) (parts p) with
  | inr k => match node_at fs k with Some Dir => true | _ => false end
  | inl _ => false
  end.

(** [os.mkdir(p)] *)
Definition os_mkdir (fs : filesystem) (cwd : list string) (p : Path)
  : outcome filesystem :=
  match split_last (parts p) with
  | None => inl FileExistsError
  | Some (init, name) =>
      match walk fs (start_dir cwd p) init with
      | inl e => inl e
      | inr d =>
          if String.eqb name ".." then inl FileExistsError
          else match node_at fs (d ++ [name]) with
               | Some _ => inl FileExistsError
               | None => inr (<[d ++ [name] := Dir]> fs)
               end
      end
  end.

(** [Path.mkdir(parents=False, exist_ok=exist_ok)]: a missing parent is an
    error; any other [OSError] is forgiven when the path is a directory. *)
Definition Path_mkdir_single (exist_ok : bool) (fs : filesystem)
    (cwd : list string) (p : Path) : outcome filesystem :=
  match os_mkdir fs cwd p with
  | inr fs' => inr fs'
  | inl FileNotFoundError => inl FileNotFoundError
  | inl e => if negb exist_ok || negb (Path_is_dir fs cwd p) then inl e else inr fs
  end.

(** [Path.mkdir(parents=True, exist_ok=exist_ok)], by recursion on the
    components taken from the last one ([rparts] is [parts] reversed):
    when [os.mkdir] finds a parent missing, the parent is made with
    [parents=True, exist_ok=True] and the directory is then made without
    [parents]. *)
Fixpoint Path_mkdir_parents (exist_ok : bool) (fs : filesystem)
    (cwd : list string) (abs : bool) (rparts : list string) : outcome filesystem :=
  let p := mkPath abs (rev rparts) in
  match os_mkdir fs cwd p with
  | inr fs' => inr fs'
  | inl FileNotFoundError =>
      match rparts with
      | [] => inl FileNotFoundError
      | _ :: rparent =>
          match Path_mkdir_parents true fs cwd abs rparent with
          | inl e => inl e
          | inr fs1 => Path_mkdir_single exist_ok fs1 cwd p
          end
      end
  | inl e => if negb exist_ok || negb (Path_is_dir fs cwd p) then inl e else inr fs
  end.

Definition Path_mkdir (parents exist_ok : bool) (fs : filesystem)
    (cwd : list string) (p : Path) : outcome filesystem :=
  if parents then Path_mkdir_parents exist_ok fs cwd (absolute p) (rev (parts p))
  else Path_mkdir_single exist_ok fs cwd p.

(** [p.open("wb")]: the file is created or truncated; the handle is the
    location of the file. *)
Definition Path_open_wb (fs : filesystem) (cwd : list string) (p : Path)
  : outcome (list string * filesystem) :=
  match split_last (parts p) with
  | None => inl IsADirectoryError
  | Some (init, name) =>
      match walk fs (start_dir cwd p) init with
      | inl e => inl e
      | inr d =>
          if String.eqb name ".." then inl IsADirectoryError
          else match node_at fs (d ++ [name]) with
               | Some Dir => inl IsADirectoryError
               | _ => inr (d ++ [name], <[d ++ [name] := File []]> fs)
               end
      end
  end.

(** [file.write(data)] followed by the close at the end of the [with]
    block. *)
Definition file_write (fs : filesystem) (k : list string) (data : list byte)
  : filesystem :=
  <[k := File (match fs !! k with Some (File old) => old ++ data | _ => data end)]> fs.

(** [grows fs fs']: nothing changed from [fs] to [fs'] but for new
    directories. *)
Definition grows (fs fs' : filesystem) : Prop :=
  ∀ k, fs' !! k = fs !! k ∨ (fs !! k = None ∧ fs' !! k = Some Dir).

(** ** What the excerpt delegates to *)

(** Heap locations of dictionaries. *)
Abbreviation loc := positive.

(** The return type of both search entry points:
    [str | dict[str, Any] | list[dict[str, Any]]]. *)
Inductive response :=
| RespStr (s : pystr)
| RespDict (d : pydict)
| RespList (l : list pydict).

(** Types and constants that are declared outside the excerpt. *)
Class Foreign := {
  Reporter : Type;
  ConfigBody : Type;
  DataFrame : Type;
  Entity : Type;
  CommunityReport : Type;
  TextUnit : Type;
  Relationship : Type;
  Covariate : Type;
  BaseVectorStore : Type;
  DbConnection : Type;
  Table : Type;
  SearchEngine : Type;
  SearchResult : Type;
  (** [result.response] *)
  result_response : SearchResult → response;
  (** [VectorStoreType.LanceDB] *)
  VectorStoreType_LanceDB : pyval;
  (** the module-level [reporter] of [query/api.py] *)
  api_reporter : Reporter;
}.

Section Excerpt.
Context `{F : Foreign}.

(** [GraphRagConfig]: the one attribute the excerpt reads,
    [config.embeddings.vector_store] (a reference to a dictionary, or
    [None]), and the rest. *)
Record GraphRagConfig := mkConfig {
  embeddings_vector_store : option loc;
  config_body : ConfigBody;
}.

(** [LanceDBVectorStore]: the three attributes the excerpt reads or
    assigns. *)
Record LanceDBVectorStore := mkLanceDB {
  collection_name : pyval;
  db_connection : option DbConnection;
  document_collection : option Table;
}.

(** What [__get_embedding_description_store] hands back: the store built by
    [VectorStoreFactory], or a [LanceDBVectorStore] built in place. *)
Inductive embedding_store :=
| StoreOfFactory (s : BaseVectorStore)
| StoreLanceDB (s : LanceDBVectorStore).

(** Keyword arguments of [api.generate_indexing_prompts]. *)
Record prompt_args := mkPromptArgs {
  pa_config : GraphRagConfig;
  pa_root : string;
  pa_chunk_size : Z;
  pa_limit : Z;
  pa_select : string;
  pa_domain : string;
  pa_language : option string;
  pa_max_tokens : Z;
  pa_skip_entity_types : bool;
  pa_min_examples_required : Z;
  pa_n_subset_max : Z;
  pa_k : Z;
}.

(** Arguments of [get_local_search_engine]. *)
Record local_engine_args := mkLocalArgs {
  la_config : GraphRagConfig;
  la_reports : list CommunityReport;
  la_text_units : list TextUnit;
  la_entities : list Entity;
  la_relationships : list Relationship;
  la_covariates : gmap string (list Covariate);
  la_description_embedding_store : embedding_store;
  la_response_type : string;
}.

(** The f-strings handed to the reporter, by their interpolated value. *)
Inductive message :=
| MsgWritingPrompts (p : Path)
| MsgVectorStoreArgs (d : pydict)
| MsgGlobalResponse (r : response)
| MsgLocalResponse (r : response).

(** Every call that leaves the excerpt. *)
Inductive call :=
| CPrintProgressReporter (prefix : string)
| CReadConfigParameters (root : string) (r : Reporter) (config : string)
| CGenerateIndexingPrompts (a : prompt_args)
| CReporterInfo (r : Reporter) (m : message)
| CReporterSuccess (r : Reporter) (m : message)
| CReadIndexerReports (final_community_reports final_nodes : DataFrame) (level : Z)
| CReadIndexerEntities (final_nodes final_entities : DataFrame) (level : Z)
| CReadIndexerTextUnits (final_text_units : DataFrame)
| CReadIndexerRelationships (final_relationships : DataFrame)
| CReadIndexerCovariates (final_covariates : DataFrame)
| CGetVectorStore (vector_store_type : pyval) (kwargs : pydict)
| CStoreConnect (s : BaseVectorStore) (kwargs : pydict)
| CStoreEntitySemanticEmbeddings (entities : list Entity) (s : BaseVectorStore)
| CLanceDBConnect (s : LanceDBVectorStore) (db_uri : pyval)
| COpenTable (c : DbConnection) (name : pyval)
| CGetGlobalSearchEngine (config : GraphRagConfig) (reports : list CommunityReport)
    (entities : list Entity) (response_type : string)
| CGetLocalSearchEngine (a : local_engine_args)
| CSearch (e : SearchEngine) (query : string).

Definition ret_type (c : call) : Type :=
  match c with
  | CPrintProgressReporter _ => Reporter
  | CReadConfigParameters _ _ _ => GraphRagConfig
  | CGenerateIndexingPrompts _ => list pystr
  | CReporterInfo _ _ => unit
  | CReporterSuccess _ _ => unit
  | CReadIndexerReports _ _ _ => list CommunityReport
  | CReadIndexerEntities _ _ _ => list Entity
  | CReadIndexerTextUnits _ => list TextUnit
  | CReadIndexerRelationships _ => list Relationship
  | CReadIndexerCovariates _ => list Covariate
  | CGetVectorStore _ _ => BaseVectorStore
  | CStoreConnect _ _ => unit
  | CStoreEntitySemanticEmbeddings _ _ => unit
  | CLanceDBConnect _ _ => DbConnection
  | COpenTable _ _ => Table
  | CGetGlobalSearchEngine _ _ _ _ => SearchEngine
  | CGetLocalSearchEngine _ => SearchEngine
  | CSearch _ _ => SearchResult
  end.

(** File operations of the excerpt itself. *)
Inductive fsop :=
| OpMkdir (parents exist_ok : bool) (p : Path)
| OpOpenWb (p : Path)
| OpWrite (file : list string) (data : list byte).

(** The log: each call with what it returned or raised, each file
    operation with what it raised. *)
Inductive event :=
| EvCall (c : call) (o : outcome (ret_type c))
| EvFs (op : fsop) (raised : option exn).

Record world := mkWorld {
  w_fs : filesystem;
  w_cwd : list string;
  w_heap : gmap loc pydict;
  w_trace : list event;
}.

(** The behaviour of everything outside the excerpt: each call is answered
    from the state of the world at the time of the call. *)
Class Externals := oracle : ∀ c : call, world → outcome (ret_type c).

Context `{X : Externals}.

(** ** The monad of the embedding: state and exceptions *)

Definition M (A : Type) : Type := world → outcome A * world.

#[local] Instance M_ret : MRet M := λ A (a : A) w, (inr a, w).
#[local] Instance M_bind : MBind M := λ A B (f : A → M B) (m : M A) w,
  match m w with
  | (inl e, w') => (inl e, w')
  | (inr a, w') => f a w'
  end.

Definition raise {A} (e : exn) : M A := λ w, (inl e, w).

Definition lift {A} (o : outcome A) : M A := λ w, (o, w).

Definition log (ev : event) (w : world) : world :=
  mkWorld (w_fs w) (w_cwd w) (w_heap w) (w_trace w ++ [ev]).

Definition set_fs (fs : filesystem) (w : world) : world :=
  mkWorld fs (w_cwd w) (w_heap w) (w_trace w).

Definition set_heap (h : gmap loc pydict) (w : world) : world :=
  mkWorld (w_fs w) (w_cwd w) h (w_trace w).

(** A call that leaves the excerpt. *)
Definition ext (c : call) : M (ret_type c) := λ w,
  let o := oracle c w in (o, log (EvCall c o) w).

(** *** Dictionaries by reference *)

(** [{}] *)
Definition dict_new : M loc := λ w,
  let l := fresh (dom (w_heap w)) in (inr l, set_heap (<[l := ∅]> (w_heap w)) w).

(** A location outside the heap reads as the empty dictionary (no Python
    reference dangles). *)
Definition deref (h : gmap loc pydict) (l : loc) : pydict := default ∅ (h !! l).

Definition dict_read (l : loc) : M pydict := λ w, (inr (deref (w_heap w) l), w).

Definition dict_write (l : loc) (d : pydict) : M unit := λ w,
  (inr tt, set_heap (<[l := d]> (w_heap w)) w).

(** [x if x else {}], and [if not x: x = {}], for [x : dict | None] *)
Definition dict_or_new (x : option loc) : M loc :=
  match x with
  | None => dict_new
  | Some l => d ← dict_read l; if dict_truthy d then mret l else dict_new
  end.

(** *** Files *)

Definition mkdir (parents exist_ok : bool) (p : Path) : M unit := λ w,
  match Path_mkdir parents exist_ok (w_fs w) (w_cwd w) p with
  | inl e => (inl e, log (EvFs (OpMkdir parents exist_ok p) (Some e)) w)
  | inr fs' => (inr tt, log (EvFs (OpMkdir parents exist_ok p) None) (set_fs fs' w))
  end.

Definition open_wb (p : Path) : M (list string) := λ w,
  match Path_open_wb (w_fs w) (w_cwd w) p with
  | inl e => (inl e, log (EvFs (OpOpenWb p) (Some e)) w)
  | inr (file, fs') => (inr file, log (EvFs (OpOpenWb p) None) (set_fs fs' w))
  end.

Definition write (file : list string) (data : list byte) : M unit := λ w,
  (inr tt, log (EvFs (OpWrite file data) None) (set_fs (file_write (w_fs w) file data) w)).

(** [seq[i]] *)
Definition subscript {A} (l : list A) (i : nat) : M A :=
  match l !! i with
  | Some a => mret a
  | None => raise IndexError
  end.

(** ** graphrag/prompt_tune/cli.py *)

Definition ENTITY_EXTRACTION_FILENAME := "entity_extraction.txt".
Definition ENTITY_SUMMARIZATION_FILENAME := "summarize_descriptions.txt".
Definition COMMUNITY_SUMMARIZATION_FILENAME := "community_report.txt".

(** [with path.open("wb") as file:
       file.write(prompts[i].encode(encoding="utf-8", errors="strict"))] *)
Definition write_prompt (path : Path) (prompts : list pystr) (i : nat) : M unit :=
  file ← open_wb path;
  prompt ← subscript prompts i;
  data ← lift (encode_utf8_strict prompt);
  write file data.

Definition prompt_tune (config root domain select : string)
    (limit max_tokens chunk_size : Z) (language : option string)
    (skip_entity_types : bool) (output : string)
    (n_subset_max k min_examples_required : Z) : M unit :=
  reporter ← ext (CPrintProgressReporter EmptyString);
  graph_config ← ext (CReadConfigParameters root reporter config);
  prompts ← ext (CGenerateIndexingPrompts
    {| pa_config := graph_config; pa_root := root; pa_chunk_size := chunk_size;
       pa_limit := limit; pa_select := select; pa_domain := domain;
       pa_language := language; pa_max_tokens := max_tokens;
       pa_skip_entity_types := skip_entity_types;
       pa_min_examples_required := min_examples_required;
       pa_n_subset_max := n_subset_max; pa_k := k |});
  let output_path := Path_of output in
  if Path_bool output_path then
    ext (CReporterInfo reporter (MsgWritingPrompts output_path));;
    mkdir true true output_path;;
    let entity_extraction_prompt_path :=
      Path_truediv output_path ENTITY_EXTRACTION_FILENAME in
    let entity_summarization_prompt_path :=
      Path_truediv output_path ENTITY_SUMMARIZATION_FILENAME in
    let community_summarization_prompt_path :=
      Path_truediv output_path COMMUNITY_SUMMARIZATION_FILENAME in
    write_prompt entity_extraction_prompt_path prompts 0;;
    write_prompt entity_summarization_prompt_path prompts 1;;
    write_prompt community_summarization_prompt_path prompts 2
  else mret tt.

(** ** graphrag/query/api.py *)

Definition LanceDBVectorStore_init (collection_name : pyval) : LanceDBVectorStore :=
  {| collection_name := collection_name; db_connection := None;
     document_collection := None |}.

Definition __get_embedding_description_store (entities : list Entity)
    (vector_store_type : pyval) (config_args : option loc) : M embedding_store :=
  config_args ← dict_or_new config_args;
  d ← dict_read config_args;
  let collection_name :=
    dict_get d "query_collection_name" (VStr "entity_description_embeddings") in
  dict_write config_args (dict_update1 d "collection_name" collection_name);;
  kwargs ← dict_read config_args;
  description_embedding_store ← ext (CGetVectorStore vector_store_type kwargs);
  kwargs ← dict_read config_args;
  ext (CStoreConnect description_embedding_store kwargs);;
  d ← dict_read config_args;
  if truthy (dict_get d "overwrite" (VBool false)) then
    ext (CStoreEntitySemanticEmbeddings entities description_embedding_store);;
    mret (StoreOfFactory description_embedding_store)
  else
    let description_embedding_store := LanceDBVectorStore_init collection_name in
    d ← dict_read config_args;
    c ← ext (CLanceDBConnect description_embedding_store
               (dict_get d "db_uri" (VStr "./lancedb")));
    let description_embedding_store :=
      mkLanceDB (Excerpt.collection_name description_embedding_store) (Some c)
                (document_collection description_embedding_store) in
    t ← ext (COpenTable c (Excerpt.collection_name description_embedding_store));
    mret (StoreLanceDB
            (mkLanceDB (Excerpt.collection_name description_embedding_store)
                       (db_connection description_embedding_store) (Some t))).

Definition global_search (config : GraphRagConfig)
    (final_nodes final_entities final_community_reports : DataFrame)
    (community_level : Z) (response_type query : string) : M response :=
  reports ← ext (CReadIndexerReports final_community_reports final_nodes community_level);
  entities ← ext (CReadIndexerEntities final_nodes final_entities community_level);
  search_engine ← ext (CGetGlobalSearchEngine config reports entities response_type);
  result ← ext (CSearch search_engine query);
  ext (CReporterSuccess api_reporter (MsgGlobalResponse (result_response result)));;
  mret (result_response result).

Definition local_search (config : GraphRagConfig)
    (final_nodes final_entities final_community_reports final_text_units
       final_relationships : DataFrame)
    (final_covariates : option DataFrame)
    (community_level : Z) (response_type query : string) : M response :=
  vector_store_args ← dict_or_new (embeddings_vector_store config);
  d ← dict_read vector_store_args;
  ext (CReporterInfo api_reporter (MsgVectorStoreArgs d));;
  d ← dict_read vector_store_args;
  let vector_store_type := dict_get d "type" VectorStoreType_LanceDB in
  entities ← ext (CReadIndexerEntities final_nodes final_entities community_level);
  description_embedding_store ←
    __get_embedding_description_store entities vector_store_type (Some vector_store_args);
  covariates ←
    match final_covariates with
    | Some df => ext (CReadIndexerCovariates df)
    | None => mret []
    end;
  reports ← ext (CReadIndexerReports final_community_reports final_nodes community_level);
  text_units ← ext (CReadIndexerTextUnits final_text_units);
  relationships ← ext (CReadIndexerRelationships final_relationships);
  search_engine ← ext (CGetLocalSearchEngine
    {| la_config := config; la_reports := reports; la_text_units := text_units;
       la_entities := entities; la_relationships := relationships;
       la_covariates := {[ "claims" := covariates ]};
       la_description_embedding_store := description_embedding_store;
       la_response_type := response_type |});
  result ← ext (CSearch search_engine query);
  ext (CReporterSuccess api_reporter (MsgLocalResponse (result_response result)));;
  mret (result_response result).

(** ** Reading a run *)

(** The events a run adds to the log. *)
Definition run_events {A} (m : M A) (w : world) : list event :=
  drop (length (w_trace w)) (w_trace (m w).2).

(** The operation behind an event, without its arguments. *)
Inductive kind :=
| KPrintProgressReporter | KReadConfigParameters | KGenerateIndexingPrompts
| KReporterInfo | KReporterSuccess
| KReadIndexerReports | KReadIndexerEntities | KReadIndexerTextUnits
| KReadIndexerRelationships | KReadIndexerCovariates
| KGetVectorStore | KStoreConnect | KStoreEntitySemanticEmbeddings
| KLanceDBConnect | KOpenTable
| KGetGlobalSearchEngine | KGetLocalSearchEngine | KSearch
| KMkdir | KOpenWb | KWrite.

Definition call_kind (c : call) : kind :=
  match c with
  | CPrintProgressReporter _ => KPrintProgressReporter
  | CReadConfigParameters _ _ _ => KReadConfigParameters
  | CGenerateIndexingPrompts _ => KGenerateIndexingPrompts
  | CReporterInfo _ _ => KReporterInfo
  | CReporterSuccess _ _ => KReporterSuccess
  | CReadIndexerReports _ _ _ => KReadIndexerReports
  | CReadIndexerEntities _ _ _ => KReadIndexerEntities
  | CReadIndexerTextUnits _ => KReadIndexerTextUnits
  | CReadIndexerRelationships _ => KReadIndexerRelationships
  | CReadIndexerCovariates _ => KReadIndexerCovariates
  | CGetVectorStore _ _ => KGetVectorStore
  | CStoreConnect _ _ => KStoreConnect
  | CStoreEntitySemanticEmbeddings _ _ => KStoreEntitySemanticEmbeddings
  | CLanceDBConnect _ _ => KLanceDBConnect
  | COpenTable _ _ => KOpenTable
  | CGetGlobalSearchEngine _ _ _ _ => KGetGlobalSearchEngine
  | CGetLocalSearchEngine _ => KGetLocalSearchEngine
  | CSearch _ _ => KSearch
  end.

Definition event_kind (ev : event) : kind :=
  match ev with
  | EvCall c _ => call_kind c
  | EvFs (OpMkdir _ _ _) _ => KMkdir
  | EvFs (OpOpenWb _) _ => KOpenWb
  | EvFs (OpWrite _ _) _ => KWrite
  end.

(** The call of an event, the exception of an event, the file operation
    of an event. *)
Definition ev_call (ev : event) : option call :=
  match ev with EvCall c _ => Some c | EvFs _ _ => None end.

Definition ev_raised (ev : event) : option exn :=
  match ev with
  | EvCall _ (inl e) => Some e
  | EvCall _ (inr _) => None
  | EvFs _ r => r
  end.

Definition ev_fsop (ev : event) : option fsop :=
  match ev with EvCall _ _ => None | EvFs op _ => Some op end.

(** What C1 asks of a run of [prompt_tune] that was handed [prompts] by the
    generator, from world [w] to world [w'] with events [evs]: the three
    prompts exist and encode, the output directory is [d], the three files
    in it hold the encoded prompts, these are the only files opened and
    written, and nothing else changed but for new directories. *)
Definition three_prompt_files (output : string) (prompts : list pystr)
    (w w' : world) (evs : list event) : Prop :=
  ∃ p0 p1 p2 b0 b1 b2 d,
    prompts !! 0 = Some p0 ∧ prompts !! 1 = Some p1 ∧ prompts !! 2 = Some p2 ∧
    encode_utf8_strict p0 = inr b0 ∧
    encode_utf8_strict p1 = inr b1 ∧
    encode_utf8_strict p2 = inr b2 ∧
    walk (w_fs w') (start_dir (w_cwd w') (Path_of output)) (parts (Path_of output))
      = inr d ∧
    w_fs w' !! (d ++ [ENTITY_EXTRACTION_FILENAME]) = Some (File b0) ∧
    w_fs w' !! (d ++ [ENTITY_SUMMARIZATION_FILENAME]) = Some (File b1) ∧
    w_fs w' !! (d ++ [COMMUNITY_SUMMARIZATION_FILENAME]) = Some (File b2) ∧
    omap ev_fsop evs =
      [ OpMkdir true true (Path_of output);
        OpOpenWb (Path_truediv (Path_of output) ENTITY_EXTRACTION_FILENAME);
        OpWrite (d ++ [ENTITY_EXTRACTION_FILENAME]) b0;
        OpOpenWb (Path_truediv (Path_of output) ENTITY_SUMMARIZATION_FILENAME);
        OpWrite (d ++ [ENTITY_SUMMARIZATION_FILENAME]) b1;
        OpOpenWb (Path_truediv (Path_of output) COMMUNITY_SUMMARIZATION_FILENAME);
        OpWrite (d ++ [COMMUNITY_SUMMARIZATION_FILENAME]) b2 ] ∧
    ∀ key,
      key ≠ d ++ [ENTITY_EXTRACTION_FILENAME] →
      key ≠ d ++ [ENTITY_SUMMARIZATION_FILENAME] →
      key ≠ d ++ [COMMUNITY_SUMMARIZATION_FILENAME] →
      w_fs w' !! key = w_fs w !! key ∨
      (w_fs w !! key = None ∧ w_fs w' !! key = Some Dir).

(** [propagates m]: an exception raised by a call that leaves the excerpt
    is the result of the run. *)
Definition propagates {A} (m : M A) : Prop :=
  ∀ w c e, EvCall c (inl e) ∈ run_events m w → (m w).1 = inl e.

(** The dictionary that [x : dict | None] stands for once [None] has been
    replaced by [{}]. *)
Definition dict_of (h : gmap loc pydict) (x : option loc) : pydict :=
  match x with
  | Some l => deref h l
  | None => ∅
  end.

(** A response has one of the three shapes of the return annotation. *)
Definition response_shape (r : response) : Prop :=
  (∃ s, r = RespStr s) ∨ (∃ d, r = RespDict d) ∨ (∃ l, r = RespList l).

(** How [x if x else {}] leaves the heap: [x] itself when it refers to a
    dictionary that is not empty, a new empty dictionary otherwise. *)
Definition dict_or_new_heap (x : option loc) (h : gmap loc pydict)
    (l : loc) (h' : gmap loc pydict) : Prop :=
  (x = Some l ∧ dict_truthy (deref h l) = true ∧ h' = h) ∨
  (l = fresh (dom h) ∧ h' = <[l := ∅]> h ∧
   match x with
   | None => True
   | Some l0 => dict_truthy (deref h l0) = false
   end).

(** The ways a run of [__get_embedding_description_store] can end, for the
    dictionary [d] that [config_args] refers to before the update: what is
    returned or raised, and the calls made. *)
Section StoreRun.
Variables (entities : list Entity) (vector_store_type : pyval) (d : pydict).

Definition store_collection_name : pyval :=
  dict_get d "query_collection_name" (VStr "entity_description_embeddings").

Definition store_kwargs : pydict :=
  dict_update1 d "collection_name" store_collection_name.

Definition store_db_uri : pyval :=
  dict_get store_kwargs "db_uri" (VStr "./lancedb").

Definition store_overwrite : bool :=
  truthy (dict_get store_kwargs "overwrite" (VBool false)).

Inductive store_run : outcome embedding_store → list event → Prop :=
| factory_raises e :
    store_run (inl e)
      [EvCall (CGetVectorStore vector_store_type store_kwargs) (inl e)]
| connect_raises s e :
    store_run (inl e)
      [EvCall (CGetVectorStore vector_store_type store_kwargs) (inr s);
       EvCall (CStoreConnect s store_kwargs) (inl e)]
| overwrite_raises s e :
    store_overwrite = true →
    store_run (inl e)
      [EvCall (CGetVectorStore vector_store_type store_kwargs) (inr s);
       EvCall (CStoreConnect s store_kwargs) (inr tt);
       EvCall (CStoreEntitySemanticEmbeddings entities s) (inl e)]
| overwrite_returns s :
    store_overwrite = true →
    store_run (inr (StoreOfFactory s))
      [EvCall (CGetVectorStore vector_store_type store_kwargs) (inr s);
       EvCall (CStoreConnect s store_kwargs) (inr tt);
       EvCall (CStoreEntitySemanticEmbeddings entities s) (inr tt)]
| lancedb_connect_raises s e :
    store_overwrite = false →
    store_run (inl e)
      [EvCall (CGetVectorStore vector_store_type store_kwargs) (inr s);
       EvCall (CStoreConnect s store_kwargs) (inr tt);
       EvCall (CLanceDBConnect (LanceDBVectorStore_init store_collection_name)
                 store_db_uri) (inl e)]
| open_table_raises s c e :
    store_overwrite = false →
    store_run (inl e)
      [EvCall (CGetVectorStore vector_store_type store_kwargs) (inr s);
       EvCall (CStoreConnect s store_kwargs) (inr tt);
       EvCall (CLanceDBConnect (LanceDBVectorStore_init store_collection_name)
                 store_db_uri) (inr c);
       EvCall (COpenTable c store_collection_name) (inl e)]
| lancedb_returns s c t :
    store_overwrite = false →
    store_run (inr (StoreLanceDB (mkLanceDB store_collection_name (Some c) (Some t))))
      [EvCall (CGetVectorStore vector_store_type store_kwargs) (inr s);
       EvCall (CStoreConnect s store_kwargs) (inr tt);
       EvCall (CLanceDBConnect (LanceDBVectorStore_init store_collection_name)
                 store_db_uri) (inr c);
       EvCall (COpenTable c store_collection_name) (inr t)].

End StoreRun.

End Excerpt.

#[global] Existing Instance M_ret.
#[global] Existing Instance M_bind.

(** ** A concrete world of collaborators *)

Module Scenario.

(** Every foreign object is a number. *)
#[export] Instance numbers : Foreign := {|
  Reporter := nat; ConfigBody := nat; DataFrame := nat; Entity := nat;
  CommunityReport := nat; TextUnit := nat; Relationship := nat;
  Covariate := nat; BaseVectorStore := nat; DbConnection := nat;
  Table := nat; SearchEngine := nat; SearchResult := nat;
  result_response := λ n, RespStr [N.of_nat n];
  VectorStoreType_LanceDB := VStr "lancedb";
  api_reporter := 0;
|}.

(** What each collaborator returns when it does not raise. *)
Definition answer (c : call) : ret_type c :=
  match c with
  | CPrintProgressReporter _ => 1
  | CReadConfigParameters _ _ _ => mkConfig None 2
  | CGenerateIndexingPrompts _ => [[0x61]; [0xE9]; [0x20AC; 0x1F600]]%N
  | CReporterInfo _ _ => tt
  | CReporterSuccess _ _ => tt
  | CReadIndexerReports _ _ _ => [3]
  | CReadIndexerEntities _ _ _ => [4]
  | CReadIndexerTextUnits _ => [5]
  | CReadIndexerRelationships _ => [6]
  | CReadIndexerCovariates _ => [7]
  | CGetVectorStore _ _ => 8
  | CStoreConnect _ _ => tt
  | CStoreEntitySemanticEmbeddings _ _ => tt
  | CLanceDBConnect _ _ => 9
  | COpenTable _ _ => 10
  | CGetGlobalSearchEngine _ _ _ _ => 11
  | CGetLocalSearchEngine _ => 12
  | CSearch e _ => 30 + e
  end.

(** Collaborators that always return. *)
Definition reliable : Externals := λ c _, inr (answer c).

Definition search_failed : exn := Raised "RuntimeError" "search failed".
Definition no_chunks : exn := Raised "ValueError" "no chunks".

(** Collaborators whose search engine raises. *)
Definition search_fails : Externals := λ c _,
  match c with
  | CSearch _ _ => inl search_failed
  | _ => inr (answer c)
  end.

(** Collaborators whose prompt generator raises. *)
Definition generator_fails : Externals := λ c _,
  match c with
  | CGenerateIndexingPrompts _ => inl no_chunks
  | _ => inr (answer c)
  end.

Definition empty_world : world := mkWorld ∅ [] ∅ [].

(** A working directory in which [prompts] is a regular file. *)
Definition prompts_is_a_file : world :=
  mkWorld {[ ["prompts"] := File [] ]} [] ∅ [].

(** A configuration without vector-store settings. *)
Definition no_settings : GraphRagConfig := mkConfig None 0.

(** A configuration whose vector-store settings name the store type. *)
Definition lancedb_settings : pydict := {[ "type" := VStr "lancedb" ]}.

Definition settings : GraphRagConfig := mkConfig (Some 1%positive) 0.

Definition settings_world : world :=
  mkWorld ∅ [] {[ 1%positive := lancedb_settings ]} [].

(** The calls that the examples run. *)
Definition tune (X : Externals) (output : string) : M unit :=
  @prompt_tune numbers X "settings.yaml" "." "law" "random" 15 2000 200 None
    false output 300 15 2.

Definition global (X : Externals) : M response :=
  @global_search numbers X no_settings 1 2 3 2 "multiple paragraphs" "who?".

Definition local (X : Externals) (config : GraphRagConfig)
    (final_covariates : option DataFrame) : M response :=
  @local_search numbers X config 1 2 3 4 5 final_covariates 2
    "multiple paragraphs" "who?".

Definition store (X : Externals) (config_args : option loc) : M embedding_store :=
  @__get_embedding_description_store numbers X [4] (VStr "milvus") config_args.

End Scenario.


(** * The platform model on small inputs *)

Example utf8_ascii : encode_utf8_strict [0x61; 0x62]%N = inr ["a"; "b"]%byte.
Proof. reflexivity. Qed.

Example utf8_two_bytes : encode_utf8_strict [0xE9]%N = inr [xc3; xa9].
Proof. reflexivity. Qed.

Example utf8_three_bytes : encode_utf8_strict [0x20AC]%N = inr [xe2; x82; xac].
Proof. reflexivity. Qed.

Example utf8_four_bytes : encode_utf8_strict [0x1F600]%N = inr [xf0; x9f; x98; x80].
Proof. reflexivity. Qed.

Example utf8_lone_surrogate :
  encode_utf8_strict [0x61; 0xD800]%N = inl (UnicodeEncodeError 1).
Proof. reflexivity. Qed.

Example Path_of_empty : Path_of EmptyString = mkPath false [].
Proof. reflexivity. Qed.

Example Path_of_relative : Path_of "out//prompts/./v1/" = mkPath false ["out"; "prompts"; "v1"].
Proof. reflexivity. Qed.

Example Path_of_absolute : Path_of "/tmp/prompts" = mkPath true ["tmp"; "prompts"].
Proof. reflexivity. Qed.

Example Path_truediv_file :
  Path_truediv (Path_of "prompts") ENTITY_EXTRACTION_FILENAME
  = mkPath false ["prompts"; "entity_extraction.txt"].
Proof. reflexivity. Qed.

Example mkdir_makes_parents :
  Path_mkdir true true ∅ ["home"] (Path_of "out/prompts")
  = inr {[ ["home"; "out"] := Dir; ["home"; "out"; "prompts"] := Dir ]}.
Proof. reflexivity. Qed.

Example mkdir_existing_directory :
  Path_mkdir true true {[ ["prompts"] := Dir ]} [] (Path_of "prompts")
  = inr {[ ["prompts"] := Dir ]}.
Proof. reflexivity. Qed.

Example mkdir_existing_file :
  Path_mkdir true true {[ ["prompts"] := File [] ]} [] (Path_of "prompts")
  = inl FileExistsError.
Proof. reflexivity. Qed.

Example mkdir_under_a_file :
  Path_mkdir true true {[ ["out"] := File [] ]} [] (Path_of "out/prompts")
  = inl NotADirectoryError.
Proof. reflexivity. Qed.

Example mkdir_working_directory : Path_mkdir true true ∅ [] (Path_of EmptyString) = inr ∅.
Proof. reflexivity. Qed.

Example open_wb_directory :
  Path_open_wb {[ ["prompts"] := Dir ]} [] (Path_of "prompts") = inl IsADirectoryError.
Proof. reflexivity. Qed.

(** * Facts about the file system *)

Lemma node_at_snoc (fs : filesystem) (d : list string) (c : string) :
  node_at fs (d ++ [c]) = fs !! (d ++ [c]).
Proof. by destruct d. Qed.

Lemma split_last_snoc (l : list string) (x : string) :
  split_last (l ++ [x]) = Some (l, x).
Proof.
  unfold split_last. rewrite removelast_last, last_last.
  by destruct l.
Qed.

Lemma split_last_Some (l init : list string) (x : string) :
  split_last l = Some (init, x) → l = init ++ [x].
Proof.
  unfold split_last. destruct l as [|a l]; [done|].
  intros [= <- <-]. by apply (@app_removelast_last _ (a :: l) EmptyString).
Qed.

Lemma walk_app (fs : filesystem) (l1 l2 cur : list string) :
  walk fs cur (l1 ++ l2) =
  match walk fs cur l1 with inl e => inl e | inr d => walk fs d l2 end.
Proof.
  revert cur. induction l1 as [|c l1 IH]; intros cur; [done|].
  cbn. destruct (String.eqb c ".."); [apply IH|].
  destruct (node_at fs (cur ++ [c])) as [[|?]|]; auto.
Qed.

(** A walk that succeeds only crosses directories, so it does not see an
    entry that is put where no directory was. *)
Lemma walk_insert (fs : filesystem) (k : list string) (n : node)
    (comps cur d : list string) :
  node_at fs k ≠ Some Dir →
  walk fs cur comps = inr d →
  walk (<[k := n]> fs) cur comps = inr d.
Proof.
  intros Hk. revert cur. induction comps as [|c comps IH]; intros cur; [done|].
  cbn. destruct (String.eqb c ".."); [apply IH|].
  rewrite !node_at_snoc.
  destruct (fs !! (cur ++ [c])) as [[|?]|] eqn:Hc; try done.
  intros Hw. rewrite lookup_insert_ne, Hc; [by apply IH|].
  intros ->. by rewrite node_at_snoc in Hk.
Qed.

Lemma is_dir_walk (fs : filesystem) (cwd : list string) (p : Path) :
  Path_is_dir fs cwd p = true →
  ∃ d, walk fs (start_dir cwd p) (parts p) = inr d ∧ node_at fs d = Some Dir.
Proof.
  unfold Path_is_dir. destruct (walk _ _ _) as [|d]; [done|].
  destruct (node_at fs d) as [[|?]|] eqn:Hd; try done. eauto.
Qed.

Lemma is_dir_insert (fs : filesystem) (cwd : list string) (p : Path)
    (k : list string) (data : list byte) :
  node_at fs k ≠ Some Dir →
  Path_is_dir fs cwd p = true →
  Path_is_dir (<[k := File data]> fs) cwd p = true.
Proof.
  intros Hk (d & Hw & Hd)%is_dir_walk. unfold Path_is_dir.
  rewrite (walk_insert _ _ _ _ _ _ Hk Hw).
  destruct d as [|c d]; [done|]. cbn in *.
  rewrite lookup_insert_ne, Hd; [done|].
  intros ->. cbn in Hk. congruence.
Qed.

(** What a successful [os.mkdir] did. *)
Lemma os_mkdir_inr (fs fs' : filesystem) (cwd : list string) (p : Path) :
  os_mkdir fs cwd p = inr fs' →
  ∃ init name d,
    parts p = init ++ [name] ∧
    walk fs (start_dir cwd p) init = inr d ∧
    fs !! (d ++ [name]) = None ∧
    String.eqb name ".." = false ∧
    fs' = <[d ++ [name] := Dir]> fs.
Proof.
  unfold os_mkdir.
  destruct (split_last (parts p)) as [[init name]|] eqn:Hs; [|done].
  apply split_last_Some in Hs.
  destruct (walk fs (start_dir cwd p) init) as [|d] eqn:Hw; [done|].
  destruct (String.eqb name "..") eqn:Hn; [done|].
  rewrite node_at_snoc.
  destruct (fs !! (d ++ [name])) eqn:Hl; [done|].
  intros [= <-]. by exists init, name, d.
Qed.

Lemma os_mkdir_is_dir (fs fs' : filesystem) (cwd : list string) (p : Path) :
  os_mkdir fs cwd p = inr fs' → Path_is_dir fs' cwd p = true.
Proof.
  intros (init & name & d & Hp & Hw & Hnone & Hn & ->)%os_mkdir_inr.
  unfold Path_is_dir. rewrite Hp, walk_app.
  rewrite (walk_insert fs (d ++ [name]) Dir init _ d); [|by rewrite node_at_snoc, Hnone|done].
  cbn. rewrite Hn, !node_at_snoc, lookup_insert_eq. cbn.
  by rewrite node_at_snoc, lookup_insert_eq.
Qed.

Lemma Path_mkdir_single_is_dir (ok : bool) (fs fs' : filesystem) (cwd : list string) (p : Path) :
  Path_mkdir_single ok fs cwd p = inr fs' → Path_is_dir fs' cwd p = true.
Proof.
  unfold Path_mkdir_single.
  destruct (os_mkdir fs cwd p) as [e|fs1] eqn:Hos.
  - destruct e; try done;
      (destruct ok; [|done]; cbn;
       destruct (Path_is_dir fs cwd p) eqn:Hd; [|done]; by intros [= <-]).
  - intros [= <-]. by eapply os_mkdir_is_dir.
Qed.

Lemma Path_mkdir_parents_is_dir (ok : bool) (fs fs' : filesystem) (cwd : list string)
    (abs : bool) (rparts : list string) :
  Path_mkdir_parents ok fs cwd abs rparts = inr fs' →
  Path_is_dir fs' cwd (mkPath abs (rev rparts)) = true.
Proof.
  destruct rparts as [|c rparent]; cbn -[os_mkdir Path_is_dir rev].
  - destruct (os_mkdir fs cwd _) as [e|fs1] eqn:Hos.
    + destruct e; try done;
        (destruct ok; [|done]; cbn -[Path_is_dir];
         destruct (Path_is_dir fs cwd _) eqn:Hd; [|done]; by intros [= <-]).
    + intros [= <-]. by eapply os_mkdir_is_dir.
  - destruct (os_mkdir fs cwd _) as [e|fs1] eqn:Hos.
    + destruct e; try done;
        try (destruct ok; [|done]; cbn -[Path_is_dir rev];
         destruct (Path_is_dir fs cwd _) eqn:Hd; [|done]; by intros [= <-]).
      destruct (Path_mkdir_parents true fs cwd abs rparent) as [|fs1]; [done|].
      apply Path_mkdir_single_is_dir.
    + intros [= <-]. by eapply os_mkdir_is_dir.
Qed.

Lemma Path_mkdir_is_dir (parents ok : bool) (fs fs' : filesystem) (cwd : list string) (p : Path) :
  Path_mkdir parents ok fs cwd p = inr fs' → Path_is_dir fs' cwd p = true.
Proof.
  unfold Path_mkdir. destruct parents.
  - intros H%Path_mkdir_parents_is_dir. rewrite rev_involutive in H. by destruct p.
  - apply Path_mkdir_single_is_dir.
Qed.

Lemma grows_refl (fs : filesystem) : grows fs fs.
Proof. intros k. by left. Qed.

Lemma grows_trans (fs1 fs2 fs3 : filesystem) : grows fs1 fs2 → grows fs2 fs3 → grows fs1 fs3.
Proof.
  intros H12 H23 k. destruct (H12 k) as [E|[E1 E2]], (H23 k) as [E'|[E1' E2']];
    [left|right|right|right]; split_and?; congruence.
Qed.

Lemma os_mkdir_grows (fs fs' : filesystem) (cwd : list string) (p : Path) :
  os_mkdir fs cwd p = inr fs' → grows fs fs'.
Proof.
  intros (init & name & d & Hp & Hw & Hnone & Hn & ->)%os_mkdir_inr k.
  destruct (decide (k = d ++ [name])) as [->|Hne].
  - right. by rewrite lookup_insert_eq.
  - left. by rewrite lookup_insert_ne.
Qed.

Lemma Path_mkdir_single_grows (ok : bool) (fs fs' : filesystem) (cwd : list string) (p : Path) :
  Path_mkdir_single ok fs cwd p = inr fs' → grows fs fs'.
Proof.
  unfold Path_mkdir_single.
  destruct (os_mkdir fs cwd p) as [e|fs1] eqn:Hos.
  - destruct e; try done;
      (destruct (negb ok || negb (Path_is_dir fs cwd p)); [done|];
       intros [= <-]; apply grows_refl).
  - intros [= <-]. by eapply os_mkdir_grows.
Qed.

Lemma Path_mkdir_parents_grows (ok : bool) (fs fs' : filesystem) (cwd : list string)
    (abs : bool) (rparts : list string) :
  Path_mkdir_parents ok fs cwd abs rparts = inr fs' → grows fs fs'.
Proof.
  revert ok fs fs'. induction rparts as [|c rparent IH]; intros ok fs fs';
    cbn -[os_mkdir Path_is_dir rev].
  - destruct (os_mkdir fs cwd _) as [e|fs1] eqn:Hos.
    + destruct e; try done;
        (destruct (negb ok || negb (Path_is_dir fs cwd _)); [done|];
         intros [= <-]; apply grows_refl).
    + intros [= <-]. by eapply os_mkdir_grows.
  - destruct (os_mkdir fs cwd _) as [e|fs1] eqn:Hos.
    + destruct e; try done;
        try (destruct (negb ok || negb (Path_is_dir fs cwd _)); [done|];
             intros [= <-]; apply grows_refl).
      destruct (Path_mkdir_parents true fs cwd abs rparent) as [|fs1] eqn:Hp; [done|].
      intros Hs%Path_mkdir_single_grows. eapply grows_trans; [|done]. by eapply IH.
    + intros [= <-]. by eapply os_mkdir_grows.
Qed.

Lemma Path_mkdir_grows (parents ok : bool) (fs fs' : filesystem) (cwd : list string) (p : Path) :
  Path_mkdir parents ok fs cwd p = inr fs' → grows fs fs'.
Proof.
  unfold Path_mkdir. destruct parents.
  - apply Path_mkdir_parents_grows.
  - apply Path_mkdir_single_grows.
Qed.

(** What a successful [open("wb")] did. *)
Lemma Path_open_wb_inr (fs fs' : filesystem) (cwd : list string) (p : Path)
    (init : list string) (name : string) (d k : list string) :
  parts p = init ++ [name] →
  walk fs (start_dir cwd p) init = inr d →
  Path_open_wb fs cwd p = inr (k, fs') →
  k = d ++ [name] ∧ node_at fs k ≠ Some Dir ∧ fs' = <[k := File []]> fs.
Proof.
  intros Hp Hw. unfold Path_open_wb. rewrite Hp, split_last_snoc, Hw.
  destruct (String.eqb name ".."); [done|].
  destruct (node_at fs (d ++ [name])) as [[|?]|] eqn:Hn; [done| |];
    intros [= <- <-]; split_and?; congruence.
Qed.

Lemma file_write_fresh (fs : filesystem) (k : list string) (data : list byte) :
  file_write (<[k := File []]> fs) k data = <[k := File data]> fs.
Proof. unfold file_write. by rewrite lookup_insert_eq, insert_insert_eq. Qed.

(** * Running the monad *)

Section Runs.
Context {F : Foreign} {X : Externals}.

Lemma bind_inv {A B} (m : M A) (f : A → M B) (w w' : world) (r : outcome B) :
  (m ≫= f) w = (r, w') →
  (∃ e, m w = (inl e, w') ∧ r = inl e) ∨
  (∃ a w1, m w = (inr a, w1) ∧ f a w1 = (r, w')).
Proof.
  unfold mbind, M_bind. destruct (m w) as [[e|a] w1].
  - intros [= <- <-]. left. eauto.
  - intros H. right. eauto.
Qed.

Lemma ret_inv {A} (a : A) (w w' : world) (r : outcome A) :
  @mret M _ A a w = (r, w') → r = inr a ∧ w' = w.
Proof. by intros [= <- <-]. Qed.

Lemma raise_inv {A} (e : exn) (w w' : world) (r : outcome A) :
  raise e w = (r, w') → r = inl e ∧ w' = w.
Proof. by intros [= <- <-]. Qed.

Lemma lift_inv {A} (o : outcome A) (w w' : world) (r : outcome A) :
  lift o w = (r, w') → o = r ∧ w' = w.
Proof. by intros [= <- <-]. Qed.

Lemma ext_inv (c : call) (w w' : world) (r : outcome (ret_type c)) :
  ext c w = (r, w') → oracle c w = r ∧ w' = log (EvCall c r) w.
Proof. by intros [= <- <-]. Qed.

Lemma dict_new_inv (w w' : world) (r : outcome loc) :
  dict_new w = (r, w') →
  r = inr (fresh (dom (w_heap w))) ∧
  w' = set_heap (<[fresh (dom (w_heap w)) := ∅]> (w_heap w)) w.
Proof. by intros [= <- <-]. Qed.

Lemma dict_read_inv (l : loc) (w w' : world) (r : outcome pydict) :
  dict_read l w = (r, w') → r = inr (deref (w_heap w) l) ∧ w' = w.
Proof. by intros [= <- <-]. Qed.

Lemma dict_write_inv (l : loc) (d : pydict) (w w' : world) (r : outcome unit) :
  dict_write l d w = (r, w') →
  r = inr tt ∧ w' = set_heap (<[l := d]> (w_heap w)) w.
Proof. by intros [= <- <-]. Qed.

Lemma mkdir_inv (parents exist_ok : bool) (p : Path) (w w' : world)
    (r : outcome unit) :
  mkdir parents exist_ok p w = (r, w') →
  (∃ e, Path_mkdir parents exist_ok (w_fs w) (w_cwd w) p = inl e ∧
        r = inl e ∧ w' = log (EvFs (OpMkdir parents exist_ok p) (Some e)) w) ∨
  (∃ fs', Path_mkdir parents exist_ok (w_fs w) (w_cwd w) p = inr fs' ∧
        r = inr tt ∧
        w' = log (EvFs (OpMkdir parents exist_ok p) None) (set_fs fs' w)).
Proof.
  unfold mkdir. destruct (Path_mkdir _ _ _ _ _) as [e|fs'];
    intros [= <- <-]; eauto.
Qed.

Lemma open_wb_inv (p : Path) (w w' : world) (r : outcome (list string)) :
  open_wb p w = (r, w') →
  (∃ e, Path_open_wb (w_fs w) (w_cwd w) p = inl e ∧
        r = inl e ∧ w' = log (EvFs (OpOpenWb p) (Some e)) w) ∨
  (∃ file fs', Path_open_wb (w_fs w) (w_cwd w) p = inr (file, fs') ∧
        r = inr file ∧ w' = log (EvFs (OpOpenWb p) None) (set_fs fs' w)).
Proof.
  unfold open_wb. destruct (Path_open_wb _ _ _) as [e|[file fs']];
    intros [= <- <-]; eauto 10.
Qed.

Lemma write_inv (file : list string) (data : list byte) (w w' : world)
    (r : outcome unit) :
  write file data w = (r, w') →
  r = inr tt ∧
  w' = log (EvFs (OpWrite file data) None)
           (set_fs (file_write (w_fs w) file data) w).
Proof. by intros [= <- <-]. Qed.

Lemma subscript_inv {A} (l : list A) (i : nat) (w w' : world) (r : outcome A) :
  subscript l i w = (r, w') →
  w' = w ∧ ((l !! i = None ∧ r = inl IndexError) ∨ (∃ a, l !! i = Some a ∧ r = inr a)).
Proof.
  unfold subscript. destruct (l !! i); intros [= <- <-]; eauto.
Qed.

Lemma run_events_of {A} (m : M A) (w w' : world) (r : outcome A) :
  m w = (r, w') → run_events m w = drop (length (w_trace w)) (w_trace w').
Proof. unfold run_events. by intros ->. Qed.

Lemma drop_trace (t evs : list event) : drop (length t) (t ++ evs) = evs.
Proof. apply drop_app_length. Qed.

Lemma drop_trace_nil (t : list event) : drop (length t) t = [].
Proof. apply drop_all. Qed.

Lemma deref_insert_eq (h : gmap loc pydict) (l : loc) (d : pydict) :
  deref (<[l := d]> h) l = d.
Proof. unfold deref. by rewrite lookup_insert_eq. Qed.

Lemma set_heap_same (w : world) : set_heap (w_heap w) w = w.
Proof. by destruct w. Qed.

Lemma dict_or_new_inv (x : option loc) (w w' : world) (r : outcome loc) :
  dict_or_new x w = (r, w') →
  ∃ l h', r = inr l ∧ w' = set_heap h' w ∧ dict_or_new_heap x (w_heap w) l h'.
Proof.
  unfold dict_or_new, dict_or_new_heap. destruct x as [l0|].
  - unfold mbind, M_bind, dict_read.
    destruct (dict_truthy (deref (w_heap w) l0)) eqn:Hd.
    + intros [= <- <-]. exists l0, (w_heap w). rewrite set_heap_same. naive_solver.
    + intros [= <- <-]. eauto 10.
  - intros [= <- <-]. eauto 10.
Qed.

End Runs.

(** Take a run apart, one statement at a time. *)
Ltac use_eq E :=
  first
  [ discriminate E
  | lazymatch type of E with
    | ?x = ?x => clear E
    | inl _ = inl _ => injection E as E; use_eq E
    | inr _ = inr _ => injection E as E; use_eq E
    | ?x = ?y => first [subst x | subst y | idtac]
    end ].

Ltac tidy_world H :=
  cbn beta iota zeta in H;
  cbn [w_fs w_cwd w_heap w_trace log set_fs set_heap] in H;
  rewrite ?deref_insert_eq in H.

Ltac inv_prim k H :=
  let E := fresh "E" in
  lazymatch type of H with
  | ext ?c ?w = _ =>
      let Ho := fresh "Ho" in apply (ext_inv c w) in H as [Ho ->]; k Ho
  | mret _ _ = _ => apply ret_inv in H as [E ->]; use_eq E
  | raise _ _ = _ => apply raise_inv in H as [E ->]; use_eq E
  | lift _ _ = _ => apply lift_inv in H as [H ->]
  | dict_new _ = _ => apply dict_new_inv in H as [E ->]; use_eq E
  | dict_read _ _ = _ => apply dict_read_inv in H as [E ->]; use_eq E
  | dict_write _ _ _ = _ => apply dict_write_inv in H as [E ->]; use_eq E
  | dict_or_new _ _ = _ =>
      let Hh := fresh "Hheap" in
      apply dict_or_new_inv in H as (? & ? & E & -> & Hh); use_eq E
  | write _ _ _ = _ => apply write_inv in H as [E ->]; use_eq E
  | mkdir _ _ _ _ = _ =>
      let Hfs := fresh "Hmkdir" in
      apply mkdir_inv in H as [(? & Hfs & E & ->)|(? & Hfs & E & ->)]; use_eq E
  | open_wb _ _ = _ =>
      let Hfs := fresh "Hopen" in
      apply open_wb_inv in H as [(? & Hfs & E & ->)|(? & ? & Hfs & E & ->)];
      use_eq E
  | subscript _ _ _ = _ =>
      let Hl := fresh "Hsub" in
      apply subscript_inv in H as [-> [[Hl E]|(? & Hl & E)]]; use_eq E
  | _ => idtac
  end.

Ltac inv_run_with k H :=
  tidy_world H;
  lazymatch type of H with
  | (_ ≫= _) _ = _ =>
      let H1 := fresh "H" in
      let E := fresh "E" in
      apply bind_inv in H as [(? & H1 & E)|(? & ? & H1 & H)];
      [use_eq E; inv_run_with k H1 | inv_run_with k H1; inv_run_with k H]
  | (if ?b then _ else _) _ = _ =>
      let Hb := fresh "Hb" in destruct b eqn:Hb; inv_run_with k H
  | (match ?x with Some _ => _ | None => _ end) _ = _ =>
      destruct x; inv_run_with k H
  | _ => inv_prim k H
  end.

(** Values of type [None]. *)
Ltac units :=
  repeat match goal with
  | u : ?T |- _ =>
      let T' := eval cbn in T in
      lazymatch T' with unit => destruct u end
  end.

(** Keep what each collaborator answered, or forget it. *)
Ltac inv_run H := inv_run_with ltac:(fun Ho => idtac) H.
Ltac inv_trace H := inv_run_with ltac:(fun Ho => clear Ho) H.

Ltac events :=
  cbn [fst snd w_fs w_cwd w_heap w_trace log set_fs set_heap] in *;
  rewrite <- ?app_assoc;
  rewrite ?drop_trace, ?drop_trace_nil; cbn [app].

(** Unfold the [with] blocks that are left. *)
Ltac inv_writes :=
  repeat match goal with
  | H : write_prompt _ _ _ _ = _ |- _ => unfold write_prompt in H; inv_trace H
  end.

(** Two events that cannot be the same one. *)
Ltac absurd_ev H :=
  first
  [ discriminate H
  | apply (f_equal ev_call) in H; discriminate H
  | apply (f_equal ev_raised) in H; discriminate H
  | apply (f_equal ev_fsop) in H; discriminate H ].

(** An event known to be among those of a run: one case for each place it
    can be at. *)
Ltac in_events H :=
  repeat first
  [ apply elem_of_nil in H; destruct H
  | apply elem_of_cons in H as [H|H]; [try absurd_ev H|]
  | apply elem_of_app in H as [H|H] ].

(** An event shown to be among those of a run. *)
Ltac is_event :=
  solve [repeat first [apply list_elem_of_here | apply list_elem_of_further]].

(** * graphrag/prompt_tune/cli.py *)

Section PromptTune.
Context {F : Foreign} {X : Externals}.
Variables (config root domain select : string).
Variables (limit max_tokens chunk_size : Z).
Variables (language : option string) (skip_entity_types : bool).
Variables (output : string).
Variables (n_subset_max k min_examples_required : Z).

Local Abbreviation tune :=
  (prompt_tune config root domain select limit max_tokens chunk_size language
     skip_entity_types output n_subset_max k min_examples_required).

Lemma Path_truediv_name (p : Path) (name : string) :
  Path_of name = mkPath false [name] →
  Path_truediv p name = mkPath (absolute p) (parts p ++ [name]).
Proof. unfold Path_truediv. by intros ->. Qed.

(** One [with] block that went through: the file now holds the encoded
    prompt, and nothing else changed. *)
Lemma write_prompt_inr (p : Path) (name : string) (prompts : list pystr)
    (i : nat) (w w' : world) (d : list string) :
  Path_of name = mkPath false [name] →
  walk (w_fs w) (start_dir (w_cwd w) p) (parts p) = inr d →
  write_prompt (Path_truediv p name) prompts i w = (inr tt, w') →
  ∃ prompt data,
    prompts !! i = Some prompt ∧
    encode_utf8_strict prompt = inr data ∧
    node_at (w_fs w) (d ++ [name]) ≠ Some Dir ∧
    w' = mkWorld (<[d ++ [name] := File data]> (w_fs w)) (w_cwd w) (w_heap w)
           (w_trace w ++ [EvFs (OpOpenWb (Path_truediv p name)) None;
                          EvFs (OpWrite (d ++ [name]) data) None]).
Proof.
  intros Hname Hwalk Hrun. unfold write_prompt in Hrun. inv_run Hrun.
  cbn [w_fs w_cwd log set_fs] in *.
  rewrite (Path_truediv_name _ _ Hname) in Hopen.
  eapply Path_open_wb_inr in Hopen as (-> & Hnode & ->); [|done..].
  eexists _, _. split_and!; [done..|].
  unfold log, set_fs. cbn [w_fs w_cwd w_heap w_trace].
  by rewrite file_write_fresh, <- app_assoc.
Qed.

Lemma snoc_inj (d : list string) (a b : string) : d ++ [a] = d ++ [b] → a = b.
Proof. intros H%app_inv_head. by injection H. Qed.

(** The three [with] blocks of a run that returned, one after the other
    in the directory [d] that [mkdir] left. *)
Ltac three_writes d Hwalk :=
  units;
  match goal with H : write_prompt _ _ 0 _ = _ |- _ =>
    let p := fresh "p" in let b := fresh "b" in
    apply (write_prompt_inr _ _ _ _ _ _ d) in H as (p & b & ? & ? & ? & ->);
      [|reflexivity|exact Hwalk]
  end;
  cbn [w_fs w_cwd w_heap w_trace log set_fs set_heap] in *;
  match goal with H : write_prompt _ _ 1 _ = _ |- _ =>
    let p := fresh "p" in let b := fresh "b" in
    apply (write_prompt_inr _ _ _ _ _ _ d) in H as (p & b & ? & ? & ? & ->);
      [|reflexivity|by apply walk_insert]
  end;
  cbn [w_fs w_cwd w_heap w_trace log set_fs set_heap] in *;
  match goal with H : write_prompt _ _ 2 _ = _ |- _ =>
    let p := fresh "p" in let b := fresh "b" in
    apply (write_prompt_inr _ _ _ _ _ _ d) in H as (p & b & ? & ? & ? & ->);
      [|reflexivity|by do 2 (apply walk_insert; [done|])]
  end.

(** C1 (amended): when [prompt_tune] returns normally it has written
    exactly three files, [entity_extraction.txt],
    [summarize_descriptions.txt] and [community_report.txt], into the
    output directory; they hold the first, second and third generated
    prompt encoded as UTF-8 with strict error handling, and nothing else
    in the file system changed but for the directories that were made. *)
Theorem prompt_tune_writes_three_files (w w' : world) :
  tune w = (inr tt, w') →
  ∃ a (prompts : list pystr),
    EvCall (CGenerateIndexingPrompts a) (inr prompts) ∈ run_events tune w ∧
    three_prompt_files output prompts w w' (run_events tune w).
Proof.
  intros Hrun. rewrite (run_events_of _ _ _ _ Hrun).
  unfold prompt_tune, Path_bool in Hrun. inv_trace Hrun.
  cbn [w_fs w_cwd w_heap w_trace log set_fs set_heap] in *.
  pose proof (Path_mkdir_grows _ _ _ _ _ _ Hmkdir) as Hgrows.
  apply Path_mkdir_is_dir, is_dir_walk in Hmkdir as (d & Hwalk & _).
  three_writes d Hwalk. events.
  assert (∀ n1 n2 : string, n1 ≠ n2 → d ++ [n1] ≠ d ++ [n2]) as Hne
    by (intros n1 n2 Hn Heq%snoc_inj; done).
  eexists _, _. split; [is_event|].
  unfold three_prompt_files. cbn [w_fs w_cwd].
  eexists _, _, _, _, _, _, d. split_and!; try done.
  - by do 3 (apply walk_insert; [done|]).
  - rewrite !lookup_insert_ne by (by apply Hne). apply lookup_insert_eq.
  - rewrite lookup_insert_ne by (by apply Hne). apply lookup_insert_eq.
  - apply lookup_insert_eq.
  - intros key ? ? ?. rewrite !lookup_insert_ne by done. apply Hgrows.
Qed.

(** C5: [prompt_tune] is a single pass in a fixed order.  In every run the
    operations are an initial part of: make the reporter, read the
    configuration, call the prompt generator once, report, make the
    directory, and open and write each of the three files.  The generator
    is called with the configuration that was read; a file operation only
    happens once the generator has returned; and when the generator raises,
    its exception is the result, no file operation happened and the file
    system is as it was. *)
Theorem prompt_tune_single_pass (w : world) (r : outcome unit) (w' : world) :
  tune w = (r, w') →
  (event_kind <$> run_events tune w)
  `prefix_of`
  [KPrintProgressReporter; KReadConfigParameters; KGenerateIndexingPrompts;
   KReporterInfo; KMkdir; KOpenWb; KWrite; KOpenWb; KWrite; KOpenWb; KWrite] ∧
  (∀ a o,
     EvCall (CGenerateIndexingPrompts a) o ∈ run_events tune w →
     ∃ reporter,
       EvCall (CReadConfigParameters root reporter config) (inr (pa_config a))
         ∈ run_events tune w) ∧
  (∀ op raised,
     EvFs op raised ∈ run_events tune w →
     ∃ a (prompts : list pystr),
       EvCall (CGenerateIndexingPrompts a) (inr prompts) ∈ run_events tune w) ∧
  (∀ a e,
     EvCall (CGenerateIndexingPrompts a) (inl e) ∈ run_events tune w →
     r = inl e ∧ w_fs w' = w_fs w ∧ omap ev_fsop (run_events tune w) = []).
Proof.
  intros Hrun. rewrite (run_events_of _ _ _ _ Hrun).
  unfold prompt_tune, Path_bool in Hrun. inv_trace Hrun; inv_writes; events.
  all: split; [by eexists|].
  all: split; [intros a o Hin; in_events Hin|].
  all: try (apply (f_equal ev_call) in Hin; injection Hin as ->; eexists; is_event).
  all: split; [intros op raised Hin; in_events Hin; eexists _, _; is_event|].
  all: intros a e Hin; in_events Hin.
  all: by apply (f_equal ev_raised) in Hin; injection Hin as ->.
Qed.

(** C10: a path object is always true, so the guard [if output_path:]
    never skips the writing branch: a run that returns normally has made
    the output directory with [mkdir(parents=True, exist_ok=True)], the
    directory exists afterwards, and the three files were opened and
    written. *)
Theorem prompt_tune_always_writes (w w' : world) :
  Path_bool (Path_of output) = true ∧
  (tune w = (inr tt, w') →
   event_kind <$> run_events tune w
   = [KPrintProgressReporter; KReadConfigParameters; KGenerateIndexingPrompts;
      KReporterInfo; KMkdir; KOpenWb; KWrite; KOpenWb; KWrite; KOpenWb; KWrite] ∧
   EvFs (OpMkdir true true (Path_of output)) None ∈ run_events tune w ∧
   Path_is_dir (w_fs w') (w_cwd w') (Path_of output) = true).
Proof.
  split; [done|].
  intros Hrun. rewrite (run_events_of _ _ _ _ Hrun).
  unfold prompt_tune, Path_bool in Hrun. inv_trace Hrun.
  cbn [w_fs w_cwd w_heap w_trace log set_fs set_heap] in *.
  apply Path_mkdir_is_dir in Hmkdir as Hdir.
  apply is_dir_walk in Hdir as (d & Hwalk & Hd).
  three_writes d Hwalk. events.
  split_and!; [done|is_event|].
  do 3 (apply is_dir_insert; [done|]).
  by eapply Path_mkdir_is_dir.
Qed.

Lemma prompt_tune_propagates : propagates tune.
Proof.
  intros w c e. destruct (tune w) as [r w'] eqn:Hrun.
  rewrite (run_events_of _ _ _ _ Hrun).
  unfold prompt_tune, Path_bool in Hrun. inv_trace Hrun; inv_writes; events.
  all: intros Hin; in_events Hin.
  all: by apply (f_equal ev_raised) in Hin; injection Hin as ->.
Qed.

Lemma prompt_tune_heap (w : world) (r : outcome unit) (w' : world) :
  tune w = (r, w') → w_heap w' = w_heap w.
Proof.
  intros Hrun.
  unfold prompt_tune, Path_bool in Hrun. by inv_trace Hrun; inv_writes; events.
Qed.

End PromptTune.

(** * graphrag/query/api.py *)

Section Query.
Context {F : Foreign} {X : Externals}.

(** ** __get_embedding_description_store *)

Lemma embedding_store_run entities vector_store_type config_args w r w' :
  __get_embedding_description_store entities vector_store_type config_args w
    = (r, w') →
  ∃ l h evs,
    dict_or_new_heap config_args (w_heap w) l h ∧
    w' = mkWorld (w_fs w) (w_cwd w) (<[l := store_kwargs (deref h l)]> h)
                 (w_trace w ++ evs) ∧
    store_run entities vector_store_type (deref h l) r evs.
Proof.
  intros Hrun. unfold __get_embedding_description_store in Hrun.
  inv_trace Hrun.
  all: eexists _, _, _; split; [eassumption|]; split;
    [unfold log, set_heap; cbn [w_fs w_cwd w_heap w_trace];
     rewrite <- ?app_assoc; reflexivity|].
  all: units; cbn [app]; by constructor.
Qed.

Lemma store_run_raised entities vector_store_type d r evs c e :
  store_run entities vector_store_type d r evs →
  EvCall c (inl e) ∈ evs → r = inl e.
Proof.
  destruct 1; intros Hin; in_events Hin.
  all: by apply (f_equal ev_raised) in Hin; injection Hin as ->.
Qed.

Lemma store_run_kinds entities vector_store_type d r evs ev :
  store_run entities vector_store_type d r evs →
  ev ∈ evs →
  event_kind ev ∈ [KGetVectorStore; KStoreConnect; KStoreEntitySemanticEmbeddings;
                   KLanceDBConnect; KOpenTable].
Proof.
  destruct 1; intros Hin; in_events Hin; subst; cbn; is_event.
Qed.

Lemma store_overwrite_get (d : pydict) :
  store_overwrite d = truthy (dict_get d "overwrite" (VBool false)).
Proof.
  unfold store_overwrite, store_kwargs, dict_update1, dict_get.
  by rewrite lookup_insert_ne.
Qed.

Lemma store_db_uri_get (d : pydict) :
  store_db_uri d = dict_get d "db_uri" (VStr "./lancedb").
Proof.
  unfold store_db_uri, store_kwargs, dict_update1, dict_get.
  by rewrite lookup_insert_ne.
Qed.

(** A run of the helper that returns a store when [overwrite] is not set. *)
Lemma store_run_lancedb entities vector_store_type d store evs :
  truthy (dict_get d "overwrite" (VBool false)) = false →
  store_run entities vector_store_type d (inr store) evs →
  ∃ s c t,
    evs =
      [ EvCall (CGetVectorStore vector_store_type
                  (<["collection_name" := store_collection_name d]> d)) (inr s);
        EvCall (CStoreConnect s
                  (<["collection_name" := store_collection_name d]> d)) (inr tt);
        EvCall (CLanceDBConnect (LanceDBVectorStore_init (store_collection_name d))
                  (dict_get d "db_uri" (VStr "./lancedb"))) (inr c);
        EvCall (COpenTable c (store_collection_name d)) (inr t) ] ∧
    store = StoreLanceDB (mkLanceDB (store_collection_name d) (Some c) (Some t)).
Proof.
  intros Hov Hrun. rewrite <- store_overwrite_get in Hov.
  inversion Hrun; subst; [congruence|].
  rewrite store_db_uri_get. by eexists _, _, _.
Qed.

(** ** The heap across [x if x else {}] *)

Lemma dict_truthy_false (d : pydict) : dict_truthy d = false → d = ∅.
Proof.
  unfold dict_truthy. intros H%negb_false_iff. by apply bool_decide_eq_true in H.
Qed.

Lemma deref_Some (h : gmap loc pydict) (l : loc) (d : pydict) :
  h !! l = Some d → deref h l = d.
Proof. unfold deref. by intros ->. Qed.

Lemma fresh_lookup (h : gmap loc pydict) : h !! fresh (dom h) = None.
Proof. apply not_elem_of_dom, is_fresh. Qed.

(** The dictionary in hand is the one [x] stood for. *)
Lemma dict_or_new_deref x h l h' :
  dict_or_new_heap x h l h' → deref h' l = dict_of h x.
Proof.
  intros [(-> & _ & ->)|(-> & -> & Hx)]; [done|].
  rewrite deref_insert_eq. destruct x as [l0|]; [|done].
  cbn. by rewrite (dict_truthy_false _ Hx).
Qed.

(** Dictionaries that were there are left alone. *)
Lemma dict_or_new_old x h l h' key d :
  dict_or_new_heap x h l h' → h !! key = Some d → h' !! key = Some d.
Proof.
  intros [(_ & _ & ->)|(-> & -> & _)] Hk; [done|].
  rewrite lookup_insert_ne; [done|]. intros <-. by rewrite fresh_lookup in Hk.
Qed.

(** The heap once [config_args.update] has run inside [local_search]: the
    dictionary of the configuration has the new key when it was not
    empty, and no other dictionary that was there is touched. *)
Lemma heap_after_update x h l1 h1 l2 h2 key d :
  dict_or_new_heap x h l1 h1 →
  dict_or_new_heap (Some l1) h1 l2 h2 →
  h !! key = Some d →
  (x = Some key ∧ dict_truthy d = true ∧
   <[l2 := store_kwargs (deref h2 l2)]> h2 !! key = Some (store_kwargs d)) ∨
  (¬ (x = Some key ∧ dict_truthy d = true) ∧
   <[l2 := store_kwargs (deref h2 l2)]> h2 !! key = Some d).
Proof.
  intros H1 H2 Hk.
  pose proof (dict_or_new_deref _ _ _ _ H1) as Hd1.
  pose proof (dict_or_new_old _ _ _ _ _ _ H1 Hk) as Hk1.
  pose proof (dict_or_new_old _ _ _ _ _ _ H2 Hk1) as Hk2.
  destruct H1 as [(-> & Ht & ->)|(-> & -> & Hx)].
  - destruct H2 as [([= <-] & _ & ->)|(_ & _ & Hf)]; [|congruence].
    destruct (decide (key = l1)) as [->|Hne].
    + left. rewrite (deref_Some _ _ _ Hk) in *. by rewrite lookup_insert_eq.
    + right. rewrite lookup_insert_ne by done. split; [|done]. by intros [[= ->] _].
  - destruct H2 as [([= <-] & Ht & _)|(-> & -> & _)].
    { by rewrite deref_insert_eq in Ht. }
    right. split.
    + intros [-> Ht]. cbn in Hx. rewrite (deref_Some _ _ _ Hk) in Hx. congruence.
    + rewrite lookup_insert_ne; [done|].
      intros <-. by rewrite fresh_lookup in Hk1.
Qed.

(** ** global_search and local_search *)

Variables (config : GraphRagConfig).
Variables (final_nodes final_entities final_community_reports : DataFrame).
Variables (final_text_units final_relationships : DataFrame).
Variables (final_covariates : option DataFrame).
Variables (community_level : Z) (response_type query : string).

Local Abbreviation gsearch :=
  (global_search config final_nodes final_entities final_community_reports
     community_level response_type query).

Local Abbreviation lsearch :=
  (local_search config final_nodes final_entities final_community_reports
     final_text_units final_relationships final_covariates community_level
     response_type query).

(** Unfold the run of the helper inside a run of [local_search]. *)
Ltac inv_store :=
  try match goal with
  | H : __get_embedding_description_store _ _ _ _ = _ |- _ =>
      let Hh := fresh "Hheap" in
      let Hs := fresh "Hstore" in
      apply embedding_store_run in H as (? & ? & ? & Hh & -> & Hs)
  end.

(** An event of [local_search] that comes after the helper returned. *)
Ltac after_store :=
  do 2 apply list_elem_of_further; apply elem_of_app; right; is_event.

(** C7: [global_search] is a single pass in a fixed order.  In every run
    the calls are an initial part of: read the reports, read the entities,
    build the engine, search, report.  A run that returns normally made
    exactly these five calls: the reports come from the community reports
    and the nodes at the community level, the entities from the nodes and
    the entities at the same level, the one engine from the configuration,
    those reports and entities and the response type, and the value
    returned is the response of the one search on that engine. *)
Theorem global_search_single_pass (w : world) (r : outcome response) (w' : world) :
  gsearch w = (r, w') →
  (event_kind <$> run_events gsearch w)
  `prefix_of`
  [KReadIndexerReports; KReadIndexerEntities; KGetGlobalSearchEngine; KSearch;
   KReporterSuccess] ∧
  (∀ resp, r = inr resp →
   ∃ reports entities (search_engine : SearchEngine) (result : SearchResult),
     run_events gsearch w =
     [ EvCall (CReadIndexerReports final_community_reports final_nodes
                 community_level) (inr reports);
       EvCall (CReadIndexerEntities final_nodes final_entities community_level)
         (inr entities);
       EvCall (CGetGlobalSearchEngine config reports entities response_type)
         (inr search_engine);
       EvCall (CSearch search_engine query) (inr result);
       EvCall (CReporterSuccess api_reporter
                 (MsgGlobalResponse (result_response result))) (inr tt) ] ∧
     resp = result_response result).
Proof.
  intros Hrun. rewrite (run_events_of _ _ _ _ Hrun).
  unfold global_search in Hrun. inv_trace Hrun; events; units.
  all: split; [by eexists|]; intros resp [= <-].
  by eexists _, _, _, _.
Qed.

Lemma global_search_response (w : world) (resp : response) (w' : world) :
  gsearch w = (inr resp, w') →
  ∃ reports entities (search_engine : SearchEngine) (result : SearchResult),
    EvCall (CGetGlobalSearchEngine config reports entities response_type)
        (inr search_engine) ∈ run_events gsearch w ∧
    EvCall (CSearch search_engine query) (inr result) ∈ run_events gsearch w ∧
    resp = result_response result.
Proof.
  intros Hrun. rewrite (run_events_of _ _ _ _ Hrun).
  unfold global_search in Hrun. inv_trace Hrun; events.
  eexists _, _, _, _. split_and!; [is_event..|reflexivity].
Qed.

Lemma global_search_propagates : propagates gsearch.
Proof.
  intros w c e. destruct (gsearch w) as [r w'] eqn:Hrun.
  rewrite (run_events_of _ _ _ _ Hrun).
  unfold global_search in Hrun. inv_trace Hrun; events.
  all: intros Hin; in_events Hin.
  all: by apply (f_equal ev_raised) in Hin; injection Hin as ->.
Qed.

Lemma global_search_frame (w : world) (r : outcome response) (w' : world) :
  gsearch w = (r, w') → w_heap w' = w_heap w ∧ w_fs w' = w_fs w.
Proof.
  intros Hrun. unfold global_search in Hrun. by inv_trace Hrun; events.
Qed.

Lemma response_has_shape (r : response) : response_shape r.
Proof. unfold response_shape. destruct r; eauto. Qed.

Lemma local_search_propagates : propagates lsearch.
Proof.
  intros w c e. destruct (lsearch w) as [r w'] eqn:Hrun.
  rewrite (run_events_of _ _ _ _ Hrun).
  unfold local_search in Hrun. inv_trace Hrun; inv_store; events.
  all: intros Hin; in_events Hin.
  all: try (by apply (f_equal ev_raised) in Hin; injection Hin as ->).
  all: apply (store_run_raised _ _ _ _ _ _ _ Hstore) in Hin.
  all: first [discriminate Hin | by injection Hin as ->].
Qed.

Lemma local_search_frame (w : world) (r : outcome response) (w' : world)
    (key : loc) (d : pydict) :
  lsearch w = (r, w') →
  w_heap w !! key = Some d →
  w_fs w' = w_fs w ∧
  (w_heap w' !! key = Some d ∨
   (embeddings_vector_store config = Some key ∧ dict_truthy d = true ∧
    w_heap w' !! key =
      Some (<["collection_name" :=
                dict_get d "query_collection_name"
                  (VStr "entity_description_embeddings")]> d))) ∧
  (embeddings_vector_store config = Some key → dict_truthy d = true →
   ∀ entities,
     EvCall (CReadIndexerEntities final_nodes final_entities community_level)
       (inr entities) ∈ run_events lsearch w →
     w_heap w' !! key =
       Some (<["collection_name" :=
                 dict_get d "query_collection_name"
                   (VStr "entity_description_embeddings")]> d)).
Proof.
  intros Hrun Hk. rewrite (run_events_of _ _ _ _ Hrun).
  unfold local_search in Hrun. inv_trace Hrun; inv_store; events.
  all: split; [done|].
  all: first
    [ destruct (heap_after_update _ _ _ _ _ _ _ _ Hheap Hheap0 Hk)
        as [(? & ? & Hnew)|(Hnot & Hold)];
      [ split; [right; split_and!; [done..|exact Hnew]|intros; exact Hnew]
      | split; [by left|intros; exfalso; by apply Hnot] ]
    | pose proof (dict_or_new_old _ _ _ _ _ _ Hheap Hk);
      split; [by left|intros ? ? ents Hin; by in_events Hin] ].
Qed.

Lemma local_search_response (w : world) (resp : response) (w' : world) :
  lsearch w = (inr resp, w') →
  ∃ a search_engine result,
    EvCall (CGetLocalSearchEngine a) (inr search_engine) ∈ run_events lsearch w ∧
    EvCall (CSearch search_engine query) (inr result) ∈ run_events lsearch w ∧
    resp = result_response result.
Proof.
  intros Hrun. rewrite (run_events_of _ _ _ _ Hrun).
  unfold local_search in Hrun. inv_trace Hrun; inv_store; events.
  all: eexists _, _, _; split_and!; [| |reflexivity]; after_store.
Qed.

(** C2: when [global_search] or [local_search] returns normally, the value
    returned is the [response] of the result of the [search(query)] call on
    the engine that the factory returned, and it is a string, a record or
    a sequence of records. *)
Theorem search_returns_engine_response (w : world) (resp : response) (w' : world) :
  (gsearch w = (inr resp, w') →
   ∃ reports entities (search_engine : SearchEngine) (result : SearchResult),
     EvCall (CGetGlobalSearchEngine config reports entities response_type)
         (inr search_engine) ∈ run_events gsearch w ∧
     EvCall (CSearch search_engine query) (inr result) ∈ run_events gsearch w ∧
     resp = result_response result ∧ response_shape resp) ∧
  (lsearch w = (inr resp, w') →
   ∃ a (search_engine : SearchEngine) (result : SearchResult),
     EvCall (CGetLocalSearchEngine a) (inr search_engine) ∈ run_events lsearch w ∧
     EvCall (CSearch search_engine query) (inr result) ∈ run_events lsearch w ∧
     resp = result_response result ∧ response_shape resp).
Proof.
  split.
  - intros (reports & entities & engine & result & ? & ? & ->)%global_search_response.
    exists reports, entities, engine, result.
    split_and!; [done..|apply response_has_shape].
  - intros (a & engine & result & ? & ? & ->)%local_search_response.
    exists a, engine, result. split_and!; [done..|apply response_has_shape].
Qed.

(** C6: the covariates are optional.  In a run with [final_covariates]
    [None], [read_indexer_covariates] is not called and the engine factory
    is given [{"claims": []}]; in a run with a data frame, the factory is
    given [{"claims": c}] for the [c] that [read_indexer_covariates]
    returned for that data frame.  A run that returns normally did call
    the factory. *)
Theorem local_search_covariates (w : world) (r : outcome response) (w' : world) :
  lsearch w = (r, w') →
  (∀ a o,
     EvCall (CGetLocalSearchEngine a) o ∈ run_events lsearch w →
     match final_covariates with
     | None => la_covariates a = {[ "claims" := [] ]}
     | Some df =>
         ∃ covariates,
           EvCall (CReadIndexerCovariates df) (inr covariates)
             ∈ run_events lsearch w ∧
           la_covariates a = {[ "claims" := covariates ]}
     end) ∧
  (final_covariates = None →
   ∀ ev, ev ∈ run_events lsearch w → event_kind ev ≠ KReadIndexerCovariates) ∧
  (∀ resp, r = inr resp →
   ∃ a (search_engine : SearchEngine),
     EvCall (CGetLocalSearchEngine a) (inr search_engine) ∈ run_events lsearch w).
Proof.
  intros Hrun. split_and!.
  - rewrite (run_events_of _ _ _ _ Hrun).
    unfold local_search in Hrun. inv_trace Hrun; inv_store; events.
    all: intros a o Hin; in_events Hin.
    all: try (apply (store_run_kinds _ _ _ _ _ _ Hstore) in Hin; cbn in Hin;
              by in_events Hin).
    all: apply (f_equal ev_call) in Hin; injection Hin as ->; cbn.
    all: try done.
    all: eexists; split; [|reflexivity]; after_store.
  - intros Hnone. rewrite (run_events_of _ _ _ _ Hrun).
    unfold local_search in Hrun. rewrite Hnone in Hrun.
    inv_trace Hrun; inv_store; events.
    all: intros ev Hin Hkind; in_events Hin; subst; try discriminate Hkind.
    all: apply (store_run_kinds _ _ _ _ _ _ Hstore) in Hin; rewrite Hkind in Hin;
         by in_events Hin.
  - intros resp ->.
    apply local_search_response in Hrun as (a & engine & _ & ? & _). eauto.
Qed.

End Query.

(** * The excerpt as a whole *)

Section Whole.
Context {F : Foreign} {X : Externals}.

(** C9: when the settings do not set ["overwrite"] to a true value (or
    there are no settings), a call of
    [__get_embedding_description_store] that returns has built and
    connected the store of the requested type, dropped it, and returns a
    [LanceDBVectorStore] for the configured collection name, connected to
    the configured [db_uri] (default ["./lancedb"]) with that table
    opened, whatever the requested type; and the store that
    [local_search] hands to the engine factory is then that
    [LanceDBVectorStore]. *)
Theorem embedding_store_is_lancedb_unless_overwrite :
  (∀ entities vector_store_type config_args w store w',
     truthy (dict_get (dict_of (w_heap w) config_args) "overwrite" (VBool false))
       = false →
     __get_embedding_description_store entities vector_store_type config_args w
       = (inr store, w') →
     ∃ (s : BaseVectorStore) (c : DbConnection) (t : Table),
       run_events (__get_embedding_description_store entities vector_store_type
                     config_args) w =
         [ EvCall (CGetVectorStore vector_store_type
                     (<["collection_name" :=
                          store_collection_name (dict_of (w_heap w) config_args)]>
                        (dict_of (w_heap w) config_args))) (inr s);
           EvCall (CStoreConnect s
                     (<["collection_name" :=
                          store_collection_name (dict_of (w_heap w) config_args)]>
                        (dict_of (w_heap w) config_args))) (inr tt);
           EvCall (CLanceDBConnect
                     (LanceDBVectorStore_init
                        (store_collection_name (dict_of (w_heap w) config_args)))
                     (dict_get (dict_of (w_heap w) config_args) "db_uri"
                        (VStr "./lancedb"))) (inr c);
           EvCall (COpenTable c
                     (store_collection_name (dict_of (w_heap w) config_args)))
             (inr t) ] ∧
       store =
         StoreLanceDB
           (mkLanceDB (store_collection_name (dict_of (w_heap w) config_args))
              (Some c) (Some t))) ∧
  (∀ config final_nodes final_entities final_community_reports final_text_units
     final_relationships final_covariates community_level response_type query
     w r w' a o,
     truthy (dict_get (dict_of (w_heap w) (embeddings_vector_store config))
               "overwrite" (VBool false)) = false →
     local_search config final_nodes final_entities final_community_reports
       final_text_units final_relationships final_covariates community_level
       response_type query w = (r, w') →
     EvCall (CGetLocalSearchEngine a) o
       ∈ run_events (local_search config final_nodes final_entities
           final_community_reports final_text_units final_relationships
           final_covariates community_level response_type query) w →
     ∃ (c : DbConnection) (t : Table),
       EvCall (COpenTable c
                 (store_collection_name
                    (dict_of (w_heap w) (embeddings_vector_store config))))
           (inr t)
         ∈ run_events (local_search config final_nodes final_entities
             final_community_reports final_text_units final_relationships
             final_covariates community_level response_type query) w ∧
       la_description_embedding_store a =
         StoreLanceDB
           (mkLanceDB
              (store_collection_name
                 (dict_of (w_heap w) (embeddings_vector_store config)))
              (Some c) (Some t))).
Proof.
  split.
  - intros entities vector_store_type config_args w store w' Hov Hrun.
    rewrite (run_events_of _ _ _ _ Hrun).
    apply embedding_store_run in Hrun as (l & h & evs & Hheap & -> & Hstore).
    rewrite (dict_or_new_deref _ _ _ _ Hheap) in Hstore.
    apply store_run_lancedb in Hstore as (s & c & t & -> & ->); [|done].
    events. by exists s, c, t.
  - intros config final_nodes final_entities final_community_reports
      final_text_units final_relationships final_covariates community_level
      response_type query w r w' a o Hov Hrun.
    rewrite (run_events_of _ _ _ _ Hrun).
    unfold local_search in Hrun. inv_trace Hrun.
    all: try match goal with
      | H : __get_embedding_description_store _ _ _ _ = _ |- _ =>
          apply embedding_store_run in H as (? & ? & ? & Hheap0 & -> & Hstore)
      end.
    all: events.
    all: intros Hin; in_events Hin.
    all: try (apply (store_run_kinds _ _ _ _ _ _ Hstore) in Hin; cbn in Hin;
              by in_events Hin).
    all: apply (f_equal ev_call) in Hin; injection Hin as ->; cbn.
    all: rewrite (dict_or_new_deref _ _ _ _ Hheap0) in Hstore; cbn in Hstore.
    all: rewrite (dict_or_new_deref _ _ _ _ Hheap) in Hstore.
    all: apply store_run_lancedb in Hstore as (s & c & t & -> & ->); [|done].
    all: exists c, t; split; [|done].
    all: do 2 apply list_elem_of_further; apply elem_of_app; left; is_event.
Qed.

Variables (config_path root domain select : string).
Variables (limit max_tokens chunk_size : Z).
Variables (language : option string) (skip_entity_types : bool).
Variables (output : string).
Variables (n_subset_max k min_examples_required : Z).
Variables (config : GraphRagConfig).
Variables (final_nodes final_entities final_community_reports : DataFrame).
Variables (final_text_units final_relationships : DataFrame).
Variables (final_covariates : option DataFrame).
Variables (community_level : Z) (response_type query : string).

Local Abbreviation tune :=
  (prompt_tune config_path root domain select limit max_tokens chunk_size
     language skip_entity_types output n_subset_max k min_examples_required).

Local Abbreviation gsearch :=
  (global_search config final_nodes final_entities final_community_reports
     community_level response_type query).

Local Abbreviation lsearch :=
  (local_search config final_nodes final_entities final_community_reports
     final_text_units final_relationships final_covariates community_level
     response_type query).

(** C4: in [prompt_tune], [global_search] and [local_search], an exception
    raised by a call to a collaborator (reporter, configuration loader,
    prompt generator, indexer adapters, vector stores, engine factory,
    search engine) is the result of the run: nothing catches it or puts
    another exception in its place. *)
Theorem exceptions_propagate :
  propagates tune ∧ propagates gsearch ∧ propagates lsearch.
Proof.
  split_and!.
  - apply prompt_tune_propagates.
  - apply global_search_propagates.
  - apply local_search_propagates.
Qed.

(** C3 (amended): [prompt_tune] and [global_search] leave every dictionary
    of the caller as it was, and [global_search] and [local_search] leave
    the file system as it was.  [local_search] leaves every dictionary as
    it was except the one [config.embeddings.vector_store] refers to when
    that one is not empty: once [read_indexer_entities] has returned, its
    key ["collection_name"] has been set to the value of
    ["query_collection_name"] (default ["entity_description_embeddings"]).
    (Data frames are values here; the excerpt has no operation on them.) *)
Theorem only_vector_store_settings_change :
  (∀ w r w', tune w = (r, w') → w_heap w' = w_heap w) ∧
  (∀ w r w', gsearch w = (r, w') → w_heap w' = w_heap w ∧ w_fs w' = w_fs w) ∧
  (∀ w r w' key d,
     lsearch w = (r, w') →
     w_heap w !! key = Some d →
     w_fs w' = w_fs w ∧
     (w_heap w' !! key = Some d ∨
      (embeddings_vector_store config = Some key ∧ dict_truthy d = true ∧
       w_heap w' !! key =
         Some (<["collection_name" :=
                   dict_get d "query_collection_name"
                     (VStr "entity_description_embeddings")]> d))) ∧
     (embeddings_vector_store config = Some key → dict_truthy d = true →
      ∀ entities,
        EvCall (CReadIndexerEntities final_nodes final_entities community_level)
          (inr entities) ∈ run_events lsearch w →
        w_heap w' !! key =
          Some (<["collection_name" :=
                    dict_get d "query_collection_name"
                      (VStr "entity_description_embeddings")]> d))).
Proof.
  split_and!.
  - intros w r w'. apply prompt_tune_heap.
  - intros w r w'. apply global_search_frame.
  - intros w r w' key d. apply local_search_frame.
Qed.

End Whole.

(** * The theorems at work *)

Section Examples.
Import Scenario.

Local Abbreviation tune_ok := (tune reliable "prompts").
Local Abbreviation tune_raises := (tune generator_fails "prompts").

Lemma prompt_tune_writes_three_files_witness :
  tune_ok empty_world = (inr tt, (tune_ok empty_world).2) ∧
  ∃ a prompts,
    EvCall (CGenerateIndexingPrompts a) (inr prompts)
      ∈ run_events tune_ok empty_world ∧
    three_prompt_files "prompts" prompts empty_world (tune_ok empty_world).2
      (run_events tune_ok empty_world).
Proof.
  split; [vm_compute; reflexivity|].
  apply (@prompt_tune_writes_three_files numbers reliable).
  vm_compute. reflexivity.
Defined.

(** C1 as stated fails: with [prompts] a regular file in the working
    directory, the configuration is read and the generator returns its
    three prompts, yet [mkdir] raises [FileExistsError] and the three
    files are not written. *)
Lemma prompt_tune_output_is_a_file :
  ∃ reporter graph_config a prompts,
    EvCall (CReadConfigParameters "." reporter "settings.yaml") (inr graph_config)
      ∈ run_events tune_ok prompts_is_a_file ∧
    EvCall (CGenerateIndexingPrompts a) (inr prompts)
      ∈ run_events tune_ok prompts_is_a_file ∧
    (tune_ok prompts_is_a_file).1 = inl FileExistsError ∧
    w_fs (tune_ok prompts_is_a_file).2 = w_fs prompts_is_a_file ∧
    ¬ three_prompt_files "prompts" prompts prompts_is_a_file
        (tune_ok prompts_is_a_file).2 (run_events tune_ok prompts_is_a_file).
Proof.
  eexists _, _, _, _. split_and!.
  - vm_compute. is_event.
  - vm_compute. is_event.
  - vm_compute. reflexivity.
  - vm_compute. reflexivity.
  - intros (p0 & p1 & p2 & b0 & b1 & b2 & d & _ & _ & _ & _ & _ & _ & Hwalk & _).
    vm_compute in Hwalk. discriminate Hwalk.
Qed.

Lemma search_returns_engine_response_witness :
  (global reliable empty_world
     = (inr (RespStr [41%N]), (global reliable empty_world).2) ∧
   ∃ reports entities (search_engine : SearchEngine) (result : SearchResult),
     EvCall (CGetGlobalSearchEngine no_settings reports entities
               "multiple paragraphs") (inr search_engine)
       ∈ run_events (global reliable) empty_world ∧
     EvCall (CSearch search_engine "who?") (inr result)
       ∈ run_events (global reliable) empty_world ∧
     RespStr [41%N] = result_response result ∧ response_shape (RespStr [41%N])) ∧
  (local reliable no_settings None empty_world
     = (inr (RespStr [42%N]), (local reliable no_settings None empty_world).2) ∧
   ∃ a (search_engine : SearchEngine) (result : SearchResult),
     EvCall (CGetLocalSearchEngine a) (inr search_engine)
       ∈ run_events (local reliable no_settings None) empty_world ∧
     EvCall (CSearch search_engine "who?") (inr result)
       ∈ run_events (local reliable no_settings None) empty_world ∧
     RespStr [42%N] = result_response result ∧ response_shape (RespStr [42%N])).
Proof.
  split; (split; [vm_compute; reflexivity|]).
  - apply (proj1 (@search_returns_engine_response numbers reliable no_settings
                    1 2 3 4 5 None 2 "multiple paragraphs" "who?" empty_world
                    (RespStr [41%N]) (global reliable empty_world).2)).
    vm_compute. reflexivity.
  - apply (proj2 (@search_returns_engine_response numbers reliable no_settings
                    1 2 3 4 5 None 2 "multiple paragraphs" "who?" empty_world
                    (RespStr [42%N])
                    (local reliable no_settings None empty_world).2)).
    vm_compute. reflexivity.
Defined.

(** C3 as stated fails: [local_search] with settings [{"type": "lancedb"}]
    leaves [config.embeddings.vector_store] with one more key. *)
Lemma local_search_changes_settings :
  w_heap settings_world !! 1%positive = Some lancedb_settings ∧
  w_heap (local reliable settings None settings_world).2 !! 1%positive
    = Some (<["collection_name" := VStr "entity_description_embeddings"]>
              lancedb_settings) ∧
  w_heap (local reliable settings None settings_world).2 !! 1%positive
    ≠ w_heap settings_world !! 1%positive.
Proof.
  split_and!.
  - vm_compute. reflexivity.
  - vm_compute. reflexivity.
  - intros Heq.
    apply (f_equal (λ o, o ≫= (λ d : pydict, d !! "collection_name"))) in Heq.
    vm_compute in Heq. discriminate Heq.
Qed.

Lemma only_vector_store_settings_change_witness :
  local reliable settings None settings_world
    = (inr (RespStr [42%N]), (local reliable settings None settings_world).2) ∧
  w_heap settings_world !! 1%positive = Some lancedb_settings ∧
  w_heap (local reliable settings None settings_world).2 !! 1%positive
    = Some (<["collection_name" :=
                dict_get lancedb_settings "query_collection_name"
                  (VStr "entity_description_embeddings")]> lancedb_settings).
Proof.
  split; [vm_compute; reflexivity|]. split; [vm_compute; reflexivity|].
  apply (proj2 (proj2 (proj2 (proj2
           (@only_vector_store_settings_change numbers reliable
              "settings.yaml" "." "law" "random" 15 2000 200 None false "prompts"
              300 15 2 settings 1 2 3 4 5 None 2 "multiple paragraphs" "who?"))
           settings_world (inr (RespStr [42%N]))
           (local reliable settings None settings_world).2 1%positive
           lancedb_settings ltac:(vm_compute; reflexivity)
           ltac:(vm_compute; reflexivity)))) with (entities := [4]).
  - reflexivity.
  - vm_compute. reflexivity.
  - vm_compute. is_event.
Defined.

Lemma exceptions_propagate_witness :
  EvCall (@CSearch numbers 11 "who?") (inl search_failed)
    ∈ run_events (global search_fails) empty_world ∧
  (global search_fails empty_world).1 = inl search_failed.
Proof.
  split; [vm_compute; is_event|].
  apply (proj1 (proj2 (@exceptions_propagate numbers search_fails
           "settings.yaml" "." "law" "random" 15 2000 200 None false "prompts"
           300 15 2 no_settings 1 2 3 4 5 None 2 "multiple paragraphs" "who?"))
         empty_world (@CSearch numbers 11 "who?")).
  vm_compute. is_event.
Defined.

Lemma prompt_tune_single_pass_witness :
  tune_raises empty_world = (inl no_chunks, (tune_raises empty_world).2) ∧
  (event_kind <$> run_events tune_raises empty_world)
  `prefix_of`
  [KPrintProgressReporter; KReadConfigParameters; KGenerateIndexingPrompts;
   KReporterInfo; KMkdir; KOpenWb; KWrite; KOpenWb; KWrite; KOpenWb; KWrite] ∧
  (∀ a e,
     EvCall (CGenerateIndexingPrompts a) (inl e)
       ∈ run_events tune_raises empty_world →
     @inl exn unit no_chunks = inl e ∧
     w_fs (tune_raises empty_world).2 = w_fs empty_world ∧
     omap ev_fsop (run_events tune_raises empty_world) = []).
Proof.
  split; [vm_compute; reflexivity|].
  pose proof (@prompt_tune_single_pass numbers generator_fails "settings.yaml"
                "." "law" "random" 15 2000 200 None false "prompts" 300 15 2
                empty_world (inl no_chunks) (tune_raises empty_world).2
                ltac:(vm_compute; reflexivity)) as (Horder & _ & _ & Hraise).
  split; [exact Horder|exact Hraise].
Defined.

Lemma local_search_covariates_witness :
  local reliable no_settings (Some 6) empty_world
    = (inr (RespStr [42%N]), (local reliable no_settings (Some 6) empty_world).2) ∧
  (∀ a o,
     EvCall (CGetLocalSearchEngine a) o
       ∈ run_events (local reliable no_settings (Some 6)) empty_world →
     ∃ covariates,
       EvCall (@CReadIndexerCovariates numbers 6) (inr covariates)
         ∈ run_events (local reliable no_settings (Some 6)) empty_world ∧
       la_covariates a = {[ "claims" := covariates ]}).
Proof.
  split; [vm_compute; reflexivity|].
  apply (proj1 (@local_search_covariates numbers reliable no_settings 1 2 3 4 5
                  (Some 6) 2 "multiple paragraphs" "who?" empty_world
                  (inr (RespStr [42%N]))
                  (local reliable no_settings (Some 6) empty_world).2
                  ltac:(vm_compute; reflexivity))).
Defined.

Lemma global_search_single_pass_witness :
  global reliable empty_world
    = (inr (RespStr [41%N]), (global reliable empty_world).2) ∧
  (event_kind <$> run_events (global reliable) empty_world)
  `prefix_of`
  [KReadIndexerReports; KReadIndexerEntities; KGetGlobalSearchEngine; KSearch;
   KReporterSuccess] ∧
  ∃ reports entities (search_engine : SearchEngine) (result : SearchResult),
    run_events (global reliable) empty_world =
    [ EvCall (@CReadIndexerReports numbers 3 1 2) (inr reports);
      EvCall (@CReadIndexerEntities numbers 1 2 2) (inr entities);
      EvCall (CGetGlobalSearchEngine no_settings reports entities
                "multiple paragraphs") (inr search_engine);
      EvCall (CSearch search_engine "who?") (inr result);
      EvCall (CReporterSuccess api_reporter
                (MsgGlobalResponse (result_response result))) (inr tt) ] ∧
    RespStr [41%N] = result_response result.
Proof.
  split; [vm_compute; reflexivity|].
  pose proof (@global_search_single_pass numbers reliable no_settings 1 2 3 2
                "multiple paragraphs" "who?" empty_world (inr (RespStr [41%N]))
                (global reliable empty_world).2
                ltac:(vm_compute; reflexivity)) as [Horder Hok].
  split; [exact Horder|exact (Hok _ eq_refl)].
Defined.

Lemma embedding_store_is_lancedb_unless_overwrite_witness :
  truthy (dict_get (dict_of (w_heap settings_world) (Some 1%positive))
            "overwrite" (VBool false)) = false ∧
  store reliable (Some 1%positive) settings_world
    = (inr (StoreLanceDB
              (mkLanceDB (VStr "entity_description_embeddings") (Some 9) (Some 10))),
       (store reliable (Some 1%positive) settings_world).2) ∧
  ∃ (s : BaseVectorStore) (c : DbConnection) (t : Table),
    run_events (store reliable (Some 1%positive)) settings_world =
      [ EvCall (CGetVectorStore (VStr "milvus")
                  (<["collection_name" :=
                       store_collection_name
                         (dict_of (w_heap settings_world) (Some 1%positive))]>
                     (dict_of (w_heap settings_world) (Some 1%positive))))
          (inr s);
        EvCall (CStoreConnect s
                  (<["collection_name" :=
                       store_collection_name
                         (dict_of (w_heap settings_world) (Some 1%positive))]>
                     (dict_of (w_heap settings_world) (Some 1%positive))))
          (inr tt);
        EvCall (CLanceDBConnect
                  (LanceDBVectorStore_init
                     (store_collection_name
                        (dict_of (w_heap settings_world) (Some 1%positive))))
                  (dict_get (dict_of (w_heap settings_world) (Some 1%positive))
                     "db_uri" (VStr "./lancedb"))) (inr c);
        EvCall (COpenTable c
                  (store_collection_name
                     (dict_of (w_heap settings_world) (Some 1%positive))))
          (inr t) ] ∧
    StoreLanceDB
      (mkLanceDB (VStr "entity_description_embeddings") (Some 9) (Some 10)) =
    StoreLanceDB
      (mkLanceDB
         (store_collection_name (dict_of (w_heap settings_world) (Some 1%positive)))
         (Some c) (Some t)).
Proof.
  split; [vm_compute; reflexivity|]. split; [vm_compute; reflexivity|].
  apply (proj1 (@embedding_store_is_lancedb_unless_overwrite numbers reliable)
           [4] (VStr "milvus") (Some 1%positive) settings_world _
           (store reliable (Some 1%positive) settings_world).2).
  - vm_compute. reflexivity.
  - vm_compute. reflexivity.
Defined.

Lemma prompt_tune_always_writes_witness :
  tune_ok empty_world = (inr tt, (tune_ok empty_world).2) ∧
  event_kind <$> run_events tune_ok empty_world
  = [KPrintProgressReporter; KReadConfigParameters; KGenerateIndexingPrompts;
     KReporterInfo; KMkdir; KOpenWb; KWrite; KOpenWb; KWrite; KOpenWb; KWrite] ∧
  EvFs (OpMkdir true true (Path_of "prompts")) None
    ∈ run_events tune_ok empty_world ∧
  Path_is_dir (w_fs (tune_ok empty_world).2) (w_cwd (tune_ok empty_world).2)
    (Path_of "prompts") = true.
Proof.
  split; [vm_compute; reflexivity|].
  apply (proj2 (@prompt_tune_always_writes numbers reliable "settings.yaml" "."
                  "law" "random" 15 2000 200 None false "prompts" 300 15 2
                  empty_world (tune_ok empty_world).2)).
  vm_compute. reflexivity.
Defined.

End Examples.
